(** * Market-making engine of [resin_mm_flat_params.py]

    A shallow embedding of the trading bot: the [datamodel] records the
    source reads, Python dictionaries as insertion-ordered association
    lists, the module-global [logger], the market-making engine
    [mm_Product_Strategy.makeOrders], the registry [strategies],
    [Trader.run] and the telemetry serializer [Logger.flush].

    Python integers are unbounded and are modelled by [Z].  Python strings
    are modelled by [string]; a character stands for the code point of the
    same number (0..255).  Code that writes to the logger or to standard
    output, or that can raise, lives in the monad [M] over a [World]. *)

From Stdlib Require Import ZArith List String Ascii Bool Lia DecimalString.
Import ListNotations.

#[local] Set Warnings "-register-all".
#[local] Open Scope string_scope.
#[local] Open Scope list_scope.
#[local] Open Scope Z_scope.

(** Python's [+] on strings. *)
Infix "+++" := String.append (at level 60, right associativity).

(* ================================================================== *)
(** ** Python values used by the source *)

(** [str(n)] for an [int]: decimal digits with a leading minus sign. *)
Definition str_int (n : Z) : string := NilZero.string_of_int (Z.to_int n).

(** [len(s)] as a Python integer. *)
Definition len (s : string) : Z := Z.of_nat (String.length s).

(** The objects handed to [Logger.print]: strings and integers. *)
Inductive pyobj : Type :=
| PStr (s : string)
| PInt (n : Z).

(** [str(o)]. *)
Definition str (o : pyobj) : string :=
  match o with
  | PStr s => s
  | PInt n => str_int n
  end.

Definition newline : string := String (ascii_of_nat 10) EmptyString.

(** [sep.join(parts)]. *)
Definition join (sep : string) (parts : list string) : string :=
  String.concat sep parts.

(* ================================================================== *)
(** ** Dictionaries

    A Python [dict] keeps its keys unique and iterates in insertion
    order.  The book sides are only iterated ([.items()]); the tables
    keyed by instrument are looked up, tested for membership and, for the
    result of [Trader.run], assigned to. *)

Module Dict.

Definition t (V : Type) : Type := list (string * V).

Definition empty {V : Type} : t V := [].

(** [d.get(k)], with [None] when [k not in d]. *)
Fixpoint get {V : Type} (d : t V) (k : string) : option V :=
  match d with
  | [] => None
  | (k', v) :: rest => if String.eqb k k' then Some v else get rest k
  end.

(** [k in d]. *)
Definition contains {V : Type} (d : t V) (k : string) : bool :=
  match get d k with
  | Some _ => true
  | None => false
  end.

(** [d[k] = v]: overwrite in place when the key exists, append otherwise. *)
Fixpoint set {V : Type} (d : t V) (k : string) (v : V) : t V :=
  match d with
  | [] => [(k, v)]
  | (k', v') :: rest =>
      if String.eqb k k' then (k', v) :: rest else (k', v') :: set rest k v
  end.

Definition keys {V : Type} (d : t V) : list string := map fst d.

Definition values {V : Type} (d : t V) : list V := map snd d.

Definition items {V : Type} (d : t V) : list (string * V) := d.

End Dict.

(* ================================================================== *)
(** ** The [datamodel] records

    [datamodel] is imported by the source and not part of it; the records
    below carry the fields the source reads.  A price level table maps an
    integer price to an integer volume and is iterated in insertion
    order, so it is the list of its items. *)

Definition Symbol : Type := string.
Definition Product : Type := string.
Definition UserId : Type := string.

(** A Python [float], carried as the text [json.dumps] prints for it. *)
Definition pyfloat : Type := string.

Record Listing : Type := mkListing {
  listing_symbol : Symbol;
  listing_product : Product;
  listing_denomination : Product
}.

(** [Order(symbol, price, quantity)]: positive quantity buys, negative
    quantity sells. *)
Record Order : Type := mkOrder {
  symbol : Symbol;
  price : Z;
  quantity : Z
}.

Record OrderDepth : Type := mkOrderDepth {
  buy_orders : list (Z * Z);
  sell_orders : list (Z * Z)
}.

Record Trade : Type := mkTrade {
  trade_symbol : Symbol;
  trade_price : Z;
  trade_quantity : Z;
  trade_buyer : option UserId;
  trade_seller : option UserId;
  trade_timestamp : Z
}.

Record ConversionObservation : Type := mkConversionObservation {
  bidPrice : pyfloat;
  askPrice : pyfloat;
  transportFees : pyfloat;
  exportTariff : pyfloat;
  importTariff : pyfloat;
  sugarPrice : pyfloat;
  sunlightIndex : pyfloat
}.

Record Observation : Type := mkObservation {
  plainValueObservations : Dict.t Z;
  conversionObservations : Dict.t ConversionObservation
}.

Record TradingState : Type := mkTradingState {
  traderData : string;
  timestamp : Z;
  listings : Dict.t Listing;
  order_depths : Dict.t OrderDepth;
  own_trades : Dict.t (list Trade);
  market_trades : Dict.t (list Trade);
  position : Dict.t Z;
  observations : Observation
}.

(* ================================================================== *)
(** ** The world and the monad of effects *)

(** [class Logger]: the accumulated text and the length budget. *)
Record Logger : Type := mkLogger {
  logs : string;
  max_log_length : Z
}.

(** [Logger.__init__]. *)
Definition Logger_init : Logger := mkLogger "" 3750.

(** What a call can touch: the caller's [TradingState] object (the
    argument [state] of [makeOrders] and [run] is a reference to it), the
    module-global [logger], and the texts handed to the built-in [print],
    oldest first. *)
Record World : Type := mkWorld {
  w_state : TradingState;
  w_logger : Logger;
  w_stdout : list string
}.

Inductive exn : Type :=
| KeyError (key : string).

Inductive outcome (A : Type) : Type :=
| Return (a : A)
| Raise (e : exn).

Arguments Return {A} a.
Arguments Raise {A} e.

Definition M (A : Type) : Type := World -> outcome A * World.

Definition ret {A : Type} (a : A) : M A := fun w => (Return a, w).

Definition raise {A : Type} (e : exn) : M A := fun w => (Raise e, w).

Definition bind {A B : Type} (m : M A) (k : A -> M B) : M B :=
  fun w =>
    match m w with
    | (Return a, w') => k a w'
    | (Raise e, w') => (Raise e, w')
    end.

Declare Scope py_scope.
Delimit Scope py_scope with py.
Notation "x <- m ;; k" := (bind m (fun x => k))
  (at level 61, m at next level, right associativity) : py_scope.
Notation "m ;;; k" := (bind m (fun _ => k))
  (at level 61, right associativity) : py_scope.
#[local] Open Scope py_scope.

(** Dereference the [state] argument. *)
Definition get_state : M TradingState := fun w => (Return (w_state w), w).

(** [d[k]]: raises [KeyError] on a missing key. *)
Definition getitem {V : Type} (d : Dict.t V) (k : string) : M V :=
  match Dict.get d k with
  | Some v => ret v
  | None => raise (KeyError k)
  end.

(** A [for] loop over [items] that threads the local variables [s]. *)
Fixpoint for_each {A S : Type} (items : list A) (body : A -> S -> M S) (s : S)
  : M S :=
  match items with
  | [] => ret s
  | x :: rest => s' <- body x s ;; for_each rest body s'
  end.

(** [Logger.print] on the global [logger], with the default separator
    (one space) and the default end (a newline). *)
Definition Logger_print (objects : list pyobj) : M unit :=
  fun w =>
    let lg := w_logger w in
    (Return tt,
     mkWorld (w_state w)
             (mkLogger (logs lg +++ (join " " (map str objects) +++ newline))
                       (max_log_length lg))
             (w_stdout w)).

(* ================================================================== *)
(** ** The market-making engine *)

(** [class mm_Product_Strategy] on top of [Product_Strategy]: the fixed
    parameters of a strategy and its fair-value estimator (abstract in
    the source, an [int]-valued function of the snapshot).  The base
    class declares [makeOrders] only; the market-making class is its one
    implementation, so the registry holds records of this type. *)
Record mm_Product_Strategy : Type := mkStrategy {
  productSymbol : Symbol;
  limit : Z;
  custom_limit : Z;
  spread : Z;
  liquidate_val : Z;
  fairValue : TradingState -> Z
}.

(** Lines 167-174 and, again, lines 194-201: the buy and the sell price
    from the fair price and the running position. *)
Definition adjust_prices (self : mm_Product_Strategy) (fair_price : Z)
  (current_position : Z) : Z * Z :=
  let fair_buy_price :=
    if current_position <=? - custom_limit self
    then fair_price + liquidate_val self
    else fair_price - spread self in
  let fair_sell_price :=
    if current_position >=? custom_limit self
    then fair_price - liquidate_val self
    else fair_price + spread self in
  (fair_buy_price, fair_sell_price).

(** Body of the loop of lines 180-184, on the locals
    [(orders, current_position)]. *)
Definition take_sell (self : mm_Product_Strategy) (fair_buy_price : Z)
  (item : Z * Z) (locals : list Order * Z) : M (list Order * Z) :=
  let '(price, volume) := item in
  let '(orders, current_position) := locals in
  if (price <=? fair_buy_price) && (current_position - volume <=? limit self)
  then
    let orders := orders ++ [mkOrder (productSymbol self) price (- volume)] in
    let current_position := current_position - volume in
    Logger_print [PStr "BUY"; PStr (str_int (- volume) +++ "x"); PInt price] ;;;
    ret (orders, current_position)
  else ret (orders, current_position).

(** Body of the loop of lines 187-191. *)
Definition take_buy (self : mm_Product_Strategy) (fair_sell_price : Z)
  (item : Z * Z) (locals : list Order * Z) : M (list Order * Z) :=
  let '(price, volume) := item in
  let '(orders, current_position) := locals in
  if (price >=? fair_sell_price) && (current_position - volume >=? - limit self)
  then
    let orders := orders ++ [mkOrder (productSymbol self) price (- volume)] in
    let current_position := current_position - volume in
    Logger_print [PStr "SELL"; PStr (str_int volume +++ "x"); PInt price] ;;;
    ret (orders, current_position)
  else ret (orders, current_position).

(** Lines 204-217: the engine's own orders. *)
Definition post_orders (self : mm_Product_Strategy)
  (fair_buy_price fair_sell_price : Z) (locals : list Order * Z)
  : M (list Order) :=
  let '(orders, current_position) := locals in
  if current_position <=? - custom_limit self then
    let orders := orders ++ [mkOrder (productSymbol self) fair_buy_price
                                     (- current_position)] in
    Logger_print [PStr "BUY"; PStr (str_int (Z.abs current_position) +++ "x");
                  PInt fair_buy_price] ;;;
    ret orders
  else if current_position >=? custom_limit self then
    let orders := orders ++ [mkOrder (productSymbol self) fair_sell_price
                                     (- current_position)] in
    Logger_print [PStr "SELL"; PStr (str_int (Z.abs current_position) +++ "x");
                  PInt fair_buy_price] ;;;
    ret orders
  else
    let orders := orders ++ [mkOrder (productSymbol self) fair_buy_price
                                     (custom_limit self)] in
    Logger_print [PStr "BUY"; PStr (str_int (Z.abs (custom_limit self)) +++ "x");
                  PInt fair_buy_price] ;;;
    let orders := orders ++ [mkOrder (productSymbol self) fair_sell_price
                                     (- custom_limit self)] in
    Logger_print [PStr "SELL"; PStr (str_int (Z.abs (custom_limit self)) +++ "x");
                  PInt fair_sell_price] ;;;
    ret orders.

(** The position the engine starts from (line 161); the subscript is
    evaluated only when the key is present. *)
Definition starting_position (self : mm_Product_Strategy)
  (state : TradingState) : Z :=
  if negb (Dict.contains (position state) (productSymbol self))
  then 0
  else match Dict.get (position state) (productSymbol self) with
       | Some p => p
       | None => 0
       end.

(** [mm_Product_Strategy.makeOrders(self, state)], lines 155-217. *)
Definition makeOrders (self : mm_Product_Strategy) : M (list Order) :=
  state <- get_state ;;
  order_depth <- getitem (order_depths state) (productSymbol self) ;;
  let current_position := starting_position self state in
  let fair_price := fairValue self state in
  let '(fair_buy_price, fair_sell_price) :=
    adjust_prices self fair_price current_position in
  locals <- for_each (sell_orders order_depth)
                     (take_sell self fair_buy_price) ([], current_position) ;;
  locals <- for_each (buy_orders order_depth)
                     (take_buy self fair_sell_price) locals ;;
  let '(fair_buy_price, fair_sell_price) :=
    adjust_prices self fair_price (snd locals) in
  post_orders self fair_buy_price fair_sell_price locals.

(** [class Rainforest_Resin_Strategy], lines 221-233. *)
Definition Rainforest_Resin_Strategy : mm_Product_Strategy :=
  mkStrategy "RAINFOREST_RESIN" 50 15 2 0 (fun _ => 10000).

(** The registry, lines 236-237. *)
Definition strategies : Dict.t mm_Product_Strategy :=
  Dict.set Dict.empty "RAINFOREST_RESIN" Rainforest_Resin_Strategy.

(* ================================================================== *)
(** ** JSON text

    [json.dumps(value, cls=ProsperityEncoder, separators=(",", ":"))] of
    Python's standard library, on the values the serializer builds: lists,
    dictionaries, integers, floats, strings and [None].  The encoder class
    is consulted only for objects of other types, which the [compress_]
    functions never leave in the value. *)

Inductive json : Type :=
| JNull
| JInt (n : Z)
| JFloat (repr : pyfloat)
| JStr (s : string)
| JList (elements : list json)
| JDict (members : list (string * json)).

Definition dquote : ascii := ascii_of_nat 34.
Definition backslash : ascii := ascii_of_nat 92.

Definition hex_digit (n : nat) : ascii :=
  nth n (list_ascii_of_string "0123456789abcdef") "0"%char.

(** The replacement of one character in [py_encode_basestring_ascii]:
    the quote, the backslash and everything outside [' '..'~'] are
    escaped.  Strings here hold code points 0..255, each of which
    Python escapes with at most six characters; Python prints a code
    point above U+FFFF, which no string here holds, as a surrogate pair
    of twelve.  No statement below relies on the bound of six. *)
Definition escape_char (c : ascii) : string :=
  let n := nat_of_ascii c in
  if Nat.eqb n 34 then String backslash (String dquote EmptyString)
  else if Nat.eqb n 92 then String backslash (String backslash EmptyString)
  else if Nat.eqb n 8 then String backslash "b"
  else if Nat.eqb n 12 then String backslash "f"
  else if Nat.eqb n 10 then String backslash "n"
  else if Nat.eqb n 13 then String backslash "r"
  else if Nat.eqb n 9 then String backslash "t"
  else if Nat.leb 32 n && Nat.leb n 126 then String c EmptyString
  else String backslash
         ("u00" +++ String (hex_digit (Nat.div n 16))
                      (String (hex_digit (Nat.modulo n 16)) EmptyString)).

Fixpoint escape (s : string) : string :=
  match s with
  | EmptyString => EmptyString
  | String c rest => escape_char c +++ escape rest
  end.

Definition encode_basestring (s : string) : string :=
  String dquote (escape s +++ String dquote EmptyString).

Fixpoint dumps (v : json) : string :=
  match v with
  | JNull => "null"
  | JInt n => str_int n
  | JFloat r => r
  | JStr s => encode_basestring s
  | JList l => "[" +++ join "," (map dumps l) +++ "]"
  | JDict l =>
      "{" +++ join "," (map (fun kv => encode_basestring (fst kv) +++ ":"
                                         +++ dumps (snd kv)) l) +++ "}"
  end.

(* ================================================================== *)
(** ** The telemetry serializer, [class Logger] *)

(** An optional user id: [None] prints as [null]. *)
Definition json_of_user (u : option UserId) : json :=
  match u with
  | Some s => JStr s
  | None => JNull
  end.

(** A price level table as a JSON object: integer keys become strings. *)
Definition json_of_levels (levels : list (Z * Z)) : json :=
  JDict (map (fun pv => (str_int (fst pv), JInt (snd pv))) levels).

Definition compress_listings (listings : Dict.t Listing) : json :=
  JList (map (fun listing =>
                JList [JStr (listing_symbol listing);
                       JStr (listing_product listing);
                       JStr (listing_denomination listing)])
             (Dict.values listings)).

Definition compress_order_depths (order_depths : Dict.t OrderDepth) : json :=
  JDict (fold_left
           (fun compressed sd =>
              Dict.set compressed (fst sd)
                       (JList [json_of_levels (buy_orders (snd sd));
                               json_of_levels (sell_orders (snd sd))]))
           (Dict.items order_depths) Dict.empty).

Definition compress_trades (trades : Dict.t (list Trade)) : json :=
  JList (flat_map
           (fun arr =>
              map (fun trade =>
                     JList [JStr (trade_symbol trade);
                            JInt (trade_price trade);
                            JInt (trade_quantity trade);
                            json_of_user (trade_buyer trade);
                            json_of_user (trade_seller trade);
                            JInt (trade_timestamp trade)])
                  arr)
           (Dict.values trades)).

Definition compress_observations (observations : Observation) : json :=
  let conversion_observations :=
    fold_left
      (fun compressed po =>
         let observation := snd po in
         Dict.set compressed (fst po)
                  (JList [JFloat (bidPrice observation);
                          JFloat (askPrice observation);
                          JFloat (transportFees observation);
                          JFloat (exportTariff observation);
                          JFloat (importTariff observation);
                          JFloat (sugarPrice observation);
                          JFloat (sunlightIndex observation)]))
      (Dict.items (conversionObservations observations)) Dict.empty in
  JList [JDict (map (fun kv => (fst kv, JInt (snd kv)))
                    (plainValueObservations observations));
         JDict conversion_observations].

Definition compress_orders (orders : Dict.t (list Order)) : json :=
  JList (flat_map
           (fun arr =>
              map (fun order =>
                     JList [JStr (symbol order); JInt (price order);
                            JInt (quantity order)])
                  arr)
           (Dict.values orders)).

Definition compress_state (state : TradingState) (trader_data : string)
  : json :=
  JList [JInt (timestamp state);
         JStr trader_data;
         compress_listings (listings state);
         compress_order_depths (order_depths state);
         compress_trades (own_trades state);
         compress_trades (market_trades state);
         JDict (map (fun kv => (fst kv, JInt (snd kv))) (position state));
         compress_observations (observations state)].

Definition to_json (value : json) : string := dumps value.

(** The slice [value[:stop]]: a negative [stop] counts from the end. *)
Definition slice_to (value : string) (stop : Z) : string :=
  if 0 <=? stop
  then substring 0 (Z.to_nat stop) value
  else substring 0 (Z.to_nat (len value + stop)) value.

(** [Logger.truncate], lines 113-117. *)
Definition truncate (value : string) (max_length : Z) : string :=
  if len value <=? max_length then value
  else slice_to value (max_length - 3) +++ "...".

(** The line [Logger.flush] prints, lines 15-40. *)
Definition flush_line (self : Logger) (state : TradingState)
  (orders : Dict.t (list Order)) (conversions : Z) (trader_data : string)
  : string :=
  let base_length :=
    len (to_json (JList [compress_state state "";
                         compress_orders orders;
                         JInt conversions;
                         JStr "";
                         JStr ""])) in
  let max_item_length := (max_log_length self - base_length) / 3 in
  to_json (JList [compress_state state
                    (truncate (traderData state) max_item_length);
                  compress_orders orders;
                  JInt conversions;
                  JStr (truncate trader_data max_item_length);
                  JStr (truncate (logs self) max_item_length)]).

(** [Logger.flush] on the global [logger]: print the line, clear the
    accumulated text. *)
Definition flush (state : TradingState) (orders : Dict.t (list Order))
  (conversions : Z) (trader_data : string) : M unit :=
  fun w =>
    let self := w_logger w in
    (Return tt,
     mkWorld (w_state w)
             (mkLogger "" (max_log_length self))
             (w_stdout w
                ++ [flush_line self state orders conversions trader_data])).

(* ================================================================== *)
(** ** The step orchestrator, [Trader.run] *)

(** Body of the loop of lines 247-251 on the local [result]. *)
Definition run_product (registry : Dict.t mm_Product_Strategy)
  (product : Symbol) (result : Dict.t (list Order))
  : M (Dict.t (list Order)) :=
  if negb (Dict.contains registry product) then ret result
  else
    strategy <- getitem registry product ;;
    orders <- makeOrders strategy ;;
    ret (Dict.set result product orders).

(** [Trader.run], lines 241-253, over a registry. *)
Definition run_with (registry : Dict.t mm_Product_Strategy)
  : M (Dict.t (list Order) * Z * string) :=
  state <- get_state ;;
  let conversions := 0 in
  let trader_data := "" in
  result <- for_each (Dict.keys (market_trades state))
                     (run_product registry) Dict.empty ;;
  flush state result conversions trader_data ;;;
  ret (result, conversions, trader_data).

(** [Trader.run] with the module-global registry [strategies]. *)
Definition run : M (Dict.t (list Order) * Z * string) := run_with strategies.

(* ================================================================== *)
(** ** Vocabulary of the specification *)

(** Applying an order to a position fills it whole. *)
Definition apply_order (pos : Z) (o : Order) : Z := pos + quantity o.

Definition apply_orders (pos : Z) (orders : list Order) : Z :=
  fold_left apply_order orders pos.

(** A position within the hard limit. *)
Definition within_limit (self : mm_Product_Strategy) (pos : Z) : Prop :=
  - limit self <= pos <= limit self.

(** The skewed quote prices of step 2, in the words of the
    specification. *)
Definition buy_price_rule (self : mm_Product_Strategy) (fair pos bp : Z)
  : Prop :=
  (pos <= - custom_limit self -> bp = fair + liquidate_val self) /\
  (~ pos <= - custom_limit self -> bp = fair - spread self).

Definition sell_price_rule (self : mm_Product_Strategy) (fair pos sp : Z)
  : Prop :=
  (pos >= custom_limit self -> sp = fair - liquidate_val self) /\
  (~ pos >= custom_limit self -> sp = fair + spread self).

(** Step 3 on the sell side, level by level: a level is bought whole
    exactly when its price is at most the buy price and the fill keeps
    the running position at most [limit]; the running position follows
    the fills; the walk goes on to the next level in both cases. *)
Inductive takes_sells (self : mm_Product_Strategy) (bp : Z)
  : Z -> list (Z * Z) -> list Order -> Z -> Prop :=
| takes_sells_done : forall pos, takes_sells self bp pos [] [] pos
| takes_sells_fill : forall pos p v levels orders pos',
    p <= bp -> pos - v <= limit self ->
    takes_sells self bp (pos - v) levels orders pos' ->
    takes_sells self bp pos ((p, v) :: levels)
                (mkOrder (productSymbol self) p (- v) :: orders) pos'
| takes_sells_skip : forall pos p v levels orders pos',
    ~ (p <= bp /\ pos - v <= limit self) ->
    takes_sells self bp pos levels orders pos' ->
    takes_sells self bp pos ((p, v) :: levels) orders pos'.

(** Step 3 on the buy side, against the sell price and [-limit]. *)
Inductive takes_buys (self : mm_Product_Strategy) (sp : Z)
  : Z -> list (Z * Z) -> list Order -> Z -> Prop :=
| takes_buys_done : forall pos, takes_buys self sp pos [] [] pos
| takes_buys_fill : forall pos p v levels orders pos',
    p >= sp -> pos - v >= - limit self ->
    takes_buys self sp (pos - v) levels orders pos' ->
    takes_buys self sp pos ((p, v) :: levels)
               (mkOrder (productSymbol self) p (- v) :: orders) pos'
| takes_buys_skip : forall pos p v levels orders pos',
    ~ (p >= sp /\ pos - v >= - limit self) ->
    takes_buys self sp pos levels orders pos' ->
    takes_buys self sp pos ((p, v) :: levels) orders pos'.

(** Steps 2 and 3 together: from the starting position [pos0], phase 1
    emits [orders] and leaves the running position [pos]. *)
Definition phase1_leaves (self : mm_Product_Strategy) (fair pos0 : Z)
  (od : OrderDepth) (orders : list Order) (pos : Z) : Prop :=
  exists bp sp os1 p1 os2,
    buy_price_rule self fair pos0 bp /\
    sell_price_rule self fair pos0 sp /\
    takes_sells self bp pos0 (sell_orders od) os1 p1 /\
    takes_buys self sp p1 (buy_orders od) os2 pos /\
    orders = os1 ++ os2.

(** Every prefix of [orders], applied to [pos], stays in [lo, hi]. *)
Fixpoint stays_within (lo hi pos : Z) (orders : list Order) : Prop :=
  lo <= pos <= hi /\
  match orders with
  | [] => True
  | o :: rest => stays_within lo hi (apply_order pos o) rest
  end.

(** Strings that [json.dumps] prints as they are, between quotes. *)
Fixpoint plain (s : string) : bool :=
  match s with
  | EmptyString => true
  | String c rest =>
      let n := nat_of_ascii c in
      Nat.leb 32 n && Nat.leb n 126 && negb (Nat.eqb n 34)
      && negb (Nat.eqb n 92) && plain rest
  end.

(* ================================================================== *)
(** ** The value computed by the engine

    The order list [makeOrders] returns does not depend on the logger;
    the functions below compute it from the snapshot alone.  They are
    tied to the monadic code by [for_each_take_sell], [for_each_take_buy],
    [post_orders_run] and [makeOrders_run]. *)

Fixpoint sell_fills (self : mm_Product_Strategy) (fair_buy_price : Z)
  (levels : list (Z * Z)) (pos : Z) : list Order * Z :=
  match levels with
  | [] => ([], pos)
  | (p, v) :: rest =>
      if (p <=? fair_buy_price) && (pos - v <=? limit self)
      then let '(os, pos') := sell_fills self fair_buy_price rest (pos - v) in
           (mkOrder (productSymbol self) p (- v) :: os, pos')
      else sell_fills self fair_buy_price rest pos
  end.

Fixpoint buy_fills (self : mm_Product_Strategy) (fair_sell_price : Z)
  (levels : list (Z * Z)) (pos : Z) : list Order * Z :=
  match levels with
  | [] => ([], pos)
  | (p, v) :: rest =>
      if (p >=? fair_sell_price) && (pos - v >=? - limit self)
      then let '(os, pos') := buy_fills self fair_sell_price rest (pos - v) in
           (mkOrder (productSymbol self) p (- v) :: os, pos')
      else buy_fills self fair_sell_price rest pos
  end.

Definition quotes (self : mm_Product_Strategy)
  (fair_buy_price fair_sell_price pos : Z) : list Order :=
  if pos <=? - custom_limit self then
    [mkOrder (productSymbol self) fair_buy_price (- pos)]
  else if pos >=? custom_limit self then
    [mkOrder (productSymbol self) fair_sell_price (- pos)]
  else
    [mkOrder (productSymbol self) fair_buy_price (custom_limit self);
     mkOrder (productSymbol self) fair_sell_price (- custom_limit self)].

(** The orders of both takes of phase 1 and the position they leave. *)
Definition phase1 (self : mm_Product_Strategy) (fair pos : Z)
  (od : OrderDepth) : list Order * Z :=
  let '(bp, sp) := adjust_prices self fair pos in
  let '(os1, p1) := sell_fills self bp (sell_orders od) pos in
  let '(os2, p2) := buy_fills self sp (buy_orders od) p1 in
  (os1 ++ os2, p2).

(** The orders of phase 2 from the position phase 1 leaves. *)
Definition phase2 (self : mm_Product_Strategy) (fair pos : Z) : list Order :=
  let '(bp, sp) := adjust_prices self fair pos in
  quotes self bp sp pos.

Definition engine (self : mm_Product_Strategy) (state : TradingState)
  (od : OrderDepth) : list Order :=
  let fair := fairValue self state in
  let '(os, pos) := phase1 self fair (starting_position self state) od in
  os ++ phase2 self fair pos.

(** A world that differs from [w] in the logger's text only. *)
Definition logged (w : World) (text : string) : World :=
  mkWorld (w_state w) (mkLogger text (max_log_length (w_logger w)))
          (w_stdout w).

(* ================================================================== *)
(** ** Concrete snapshots *)

(** A snapshot that carries one order book, for [RAINFOREST_RESIN], and a
    position table. *)
Definition snapshot (od : OrderDepth) (positions : Dict.t Z) : TradingState :=
  mkTradingState "" 0 [] [("RAINFOREST_RESIN", od)] [] [] positions
                 (mkObservation [] []).

(** The world at the start of a step: nothing logged, nothing printed. *)
Definition fresh (state : TradingState) : World :=
  mkWorld state Logger_init [].

(** The book of the first scenario of the specification. *)
Definition scenario_book : OrderDepth :=
  mkOrderDepth [(10002, 4)] [(9998, -5)].

Definition empty_book : OrderDepth := mkOrderDepth [] [].

(** A strategy with the parameters of the resin strategy except for a
    custom limit of 40 (still at most the hard limit of 50). *)
Definition wide_strategy : mm_Product_Strategy :=
  mkStrategy "RAINFOREST_RESIN" 50 40 2 0 (fun _ => 10000).

(** A snapshot with the resin book in which only [KELP], which is not
    registered, traded. *)
Definition quiet_state : TradingState :=
  mkTradingState "" 0 [] [("RAINFOREST_RESIN", scenario_book)] []
                 [("KELP", [])] [] (mkObservation [] []).

(** The snapshot of the failing run: nothing but a trader-data text of
    700 letters e-acute (code point 233). *)
Definition accented_state : TradingState :=
  mkTradingState (string_of_list_ascii (repeat (ascii_of_nat 233) 700))
                 0 [] [] [] [] [] (mkObservation [] []).

(** The scenario book with a hundred market trades of the instrument. *)
Definition busy_state : TradingState :=
  mkTradingState "" 0 [] [("RAINFOREST_RESIN", scenario_book)] []
                 [("RAINFOREST_RESIN",
                   repeat (mkTrade "RAINFOREST_RESIN" 10000 1 None None 0)
                          100)]
                 [] (mkObservation [] []).

(* ================================================================== *)
(** ** The text the engine logs

    [Logger.print] appends one line per call.  The functions below
    compute the text [makeOrders] appends, in step with [sell_fills],
    [buy_fills] and [quotes]; [makeOrders_log] ties them to the monadic
    code. *)

(** The text one call of [Logger.print] appends. *)
Definition log_line (objects : list pyobj) : string :=
  join " " (map str objects) +++ newline.

Fixpoint sell_fills_log (self : mm_Product_Strategy) (fair_buy_price : Z)
  (levels : list (Z * Z)) (pos : Z) : string :=
  match levels with
  | [] => ""
  | (p, v) :: rest =>
      if (p <=? fair_buy_price) && (pos - v <=? limit self)
      then log_line [PStr "BUY"; PStr (str_int (- v) +++ "x"); PInt p]
             +++ sell_fills_log self fair_buy_price rest (pos - v)
      else sell_fills_log self fair_buy_price rest pos
  end.

Fixpoint buy_fills_log (self : mm_Product_Strategy) (fair_sell_price : Z)
  (levels : list (Z * Z)) (pos : Z) : string :=
  match levels with
  | [] => ""
  | (p, v) :: rest =>
      if (p >=? fair_sell_price) && (pos - v >=? - limit self)
      then log_line [PStr "SELL"; PStr (str_int v +++ "x"); PInt p]
             +++ buy_fills_log self fair_sell_price rest (pos - v)
      else buy_fills_log self fair_sell_price rest pos
  end.

Definition quotes_log (self : mm_Product_Strategy)
  (fair_buy_price fair_sell_price pos : Z) : string :=
  if pos <=? - custom_limit self then
    log_line [PStr "BUY"; PStr (str_int (Z.abs pos) +++ "x");
              PInt fair_buy_price]
  else if pos >=? custom_limit self then
    log_line [PStr "SELL"; PStr (str_int (Z.abs pos) +++ "x");
              PInt fair_buy_price]
  else
    log_line [PStr "BUY"; PStr (str_int (Z.abs (custom_limit self)) +++ "x");
              PInt fair_buy_price]
      +++ log_line [PStr "SELL";
                    PStr (str_int (Z.abs (custom_limit self)) +++ "x");
                    PInt fair_sell_price].

Definition engine_log (self : mm_Product_Strategy) (state : TradingState)
  (od : OrderDepth) : string :=
  let fair := fairValue self state in
  let pos0 := starting_position self state in
  let '(bp, sp) := adjust_prices self fair pos0 in
  let '(_, p1) := sell_fills self bp (sell_orders od) pos0 in
  let '(_, p2) := buy_fills self sp (buy_orders od) p1 in
  let '(bp2, sp2) := adjust_prices self fair p2 in
  sell_fills_log self bp (sell_orders od) pos0
    +++ buy_fills_log self sp (buy_orders od) p1
    +++ quotes_log self bp2 sp2 p2.

(** The text [makeOrders] of [strategy] logs on the snapshot [state],
    read off a logger that starts empty. *)
Definition logged_by (strategy : mm_Product_Strategy) (state : TradingState)
  : string :=
  logs (w_logger (snd (makeOrders strategy
                                  (mkWorld state (mkLogger "" 0) [])))).

(** The text the loop of [run] logs over [products]: what each
    registered product's strategy logs, in the order of the products. *)
Fixpoint run_text (registry : Dict.t mm_Product_Strategy)
  (state : TradingState) (products : list Symbol) : string :=
  match products with
  | [] => ""
  | product :: rest =>
      match Dict.get registry product with
      | Some strategy => logged_by strategy state
      | None => ""
      end +++ run_text registry state rest
  end.

(** A snapshot with the scenario book in which [KELP], which is not
    registered, and then resin traded. *)
Definition traded_state : TradingState :=
  mkTradingState "" 0 [] [("RAINFOREST_RESIN", scenario_book)] []
                 [("KELP", []); ("RAINFOREST_RESIN", [])] []
                 (mkObservation [] []).

(** The number of newline characters of a text. *)
Fixpoint count_lines (s : string) : nat :=
  match s with
  | EmptyString => 0%nat
  | String c rest =>
      ((if Nat.eqb (nat_of_ascii c) 10 then 1 else 0) + count_lines rest)%nat
  end.

(** The number of price levels of a book, both sides. *)
Definition levels_of (od : OrderDepth) : nat :=
  (List.length (sell_orders od) + List.length (buy_orders od))%nat.

(** The float texts a JSON value holds. *)
Fixpoint float_texts (v : json) : list pyfloat :=
  match v with
  | JFloat r => [r]
  | JList l => flat_map float_texts l
  | JDict l => flat_map (fun kv => float_texts (snd kv)) l
  | _ => []
  end.

(** The floats of a conversion observation, as the serializer lists
    them. *)
Definition observation_floats (c : ConversionObservation) : list pyfloat :=
  [bidPrice c; askPrice c; transportFees c; exportTariff c; importTariff c;
   sugarPrice c; sunlightIndex c].

(** The texts of all floats of a snapshot are free of newlines, as the
    texts Python prints for floats are. *)
Definition floats_one_line (state : TradingState) : Prop :=
  Forall (fun po =>
            Forall (fun r => count_lines r = 0%nat)
                   (observation_floats (snd po)))
         (conversionObservations (observations state)).

(* ================================================================== *)
(** ** The monadic code computes these values *)

Lemma logged_same (w : World) : logged w (logs (w_logger w)) = w.
Proof. destruct w as [st [lg mx] out]. reflexivity. Qed.

Lemma take_sell_run (self : mm_Product_Strategy) (bp p v : Z)
  (orders : list Order) (pos : Z) (w : World) :
  exists t,
    take_sell self bp (p, v) (orders, pos) w
    = (Return (if (p <=? bp) && (pos - v <=? limit self)
               then (orders ++ [mkOrder (productSymbol self) p (- v)], pos - v)
               else (orders, pos)),
       logged w t).
Proof.
  unfold take_sell.
  destruct ((p <=? bp) && (pos - v <=? limit self)).
  - eexists. reflexivity.
  - exists (logs (w_logger w)). rewrite logged_same. reflexivity.
Qed.

Lemma take_buy_run (self : mm_Product_Strategy) (sp p v : Z)
  (orders : list Order) (pos : Z) (w : World) :
  exists t,
    take_buy self sp (p, v) (orders, pos) w
    = (Return (if (p >=? sp) && (pos - v >=? - limit self)
               then (orders ++ [mkOrder (productSymbol self) p (- v)], pos - v)
               else (orders, pos)),
       logged w t).
Proof.
  unfold take_buy.
  destruct ((p >=? sp) && (pos - v >=? - limit self)).
  - eexists. reflexivity.
  - exists (logs (w_logger w)). rewrite logged_same. reflexivity.
Qed.

Lemma for_each_take_sell (self : mm_Product_Strategy) (bp : Z) :
  forall levels orders pos w,
  exists t,
    for_each levels (take_sell self bp) (orders, pos) w
    = (Return (orders ++ fst (sell_fills self bp levels pos),
               snd (sell_fills self bp levels pos)),
       logged w t).
Proof.
  induction levels as [|[p v] rest IH]; intros orders pos w.
  - exists (logs (w_logger w)). cbn. rewrite app_nil_r, logged_same.
    reflexivity.
  - cbn [for_each sell_fills]. unfold bind.
    destruct (take_sell_run self bp p v orders pos w) as [t Ht].
    rewrite Ht. clear Ht.
    destruct ((p <=? bp) && (pos - v <=? limit self)).
    + destruct (IH (orders ++ [mkOrder (productSymbol self) p (- v)])
                   (pos - v) (logged w t)) as [t' Ht'].
      rewrite Ht'. exists t'.
      destruct (sell_fills self bp rest (pos - v)) as [os pos'].
      cbn. rewrite <- app_assoc. reflexivity.
    + destruct (IH orders pos (logged w t)) as [t' Ht'].
      rewrite Ht'. exists t'. reflexivity.
Qed.

Lemma for_each_take_buy (self : mm_Product_Strategy) (sp : Z) :
  forall levels orders pos w,
  exists t,
    for_each levels (take_buy self sp) (orders, pos) w
    = (Return (orders ++ fst (buy_fills self sp levels pos),
               snd (buy_fills self sp levels pos)),
       logged w t).
Proof.
  induction levels as [|[p v] rest IH]; intros orders pos w.
  - exists (logs (w_logger w)). cbn. rewrite app_nil_r, logged_same.
    reflexivity.
  - cbn [for_each buy_fills]. unfold bind.
    destruct (take_buy_run self sp p v orders pos w) as [t Ht].
    rewrite Ht. clear Ht.
    destruct ((p >=? sp) && (pos - v >=? - limit self)).
    + destruct (IH (orders ++ [mkOrder (productSymbol self) p (- v)])
                   (pos - v) (logged w t)) as [t' Ht'].
      rewrite Ht'. exists t'.
      destruct (buy_fills self sp rest (pos - v)) as [os pos'].
      cbn. rewrite <- app_assoc. reflexivity.
    + destruct (IH orders pos (logged w t)) as [t' Ht'].
      rewrite Ht'. exists t'. reflexivity.
Qed.

Lemma post_orders_run (self : mm_Product_Strategy) (bp sp : Z)
  (orders : list Order) (pos : Z) (w : World) :
  exists t,
    post_orders self bp sp (orders, pos) w
    = (Return (orders ++ quotes self bp sp pos), logged w t).
Proof.
  unfold post_orders, quotes.
  destruct (pos <=? - custom_limit self).
  - eexists. reflexivity.
  - destruct (pos >=? custom_limit self).
    + eexists. reflexivity.
    + eexists. cbn. rewrite <- app_assoc. reflexivity.
Qed.

(** The whole engine: its value is [engine] on the snapshot, or the
    [KeyError] of line 159, and it changes the logger's text only. *)
Lemma makeOrders_run (self : mm_Product_Strategy) (w : World) :
  exists t,
    makeOrders self w
    = (match Dict.get (order_depths (w_state w)) (productSymbol self) with
       | Some od => Return (engine self (w_state w) od)
       | None => Raise (KeyError (productSymbol self))
       end,
       logged w t).
Proof.
  unfold makeOrders, bind, get_state, getitem.
  destruct (Dict.get (order_depths (w_state w)) (productSymbol self))
    as [od|].
  - unfold ret at 1. unfold engine, phase1, phase2.
    destruct (adjust_prices self (fairValue self (w_state w))
                (starting_position self (w_state w))) as [bp sp].
    destruct (for_each_take_sell self bp (sell_orders od) []
                (starting_position self (w_state w)) w) as [t1 H1].
    rewrite H1. clear H1. cbn [app].
    destruct (sell_fills self bp (sell_orders od)
                (starting_position self (w_state w))) as [os1 p1].
    cbn [fst snd].
    destruct (for_each_take_buy self sp (buy_orders od) os1 p1 (logged w t1))
      as [t2 H2].
    rewrite H2. clear H2.
    destruct (buy_fills self sp (buy_orders od) p1) as [os2 p2].
    cbn [fst snd].
    destruct (adjust_prices self (fairValue self (w_state w)) p2)
      as [bp2 sp2].
    destruct (post_orders_run self bp2 sp2 (os1 ++ os2) p2
                (logged (logged w t1) t2)) as [t3 H3].
    rewrite H3. exists t3. reflexivity.
  - exists (logs (w_logger w)). rewrite logged_same. reflexivity.
Qed.

Lemma makeOrders_no_book (self : mm_Product_Strategy) (w : World) :
  Dict.get (order_depths (w_state w)) (productSymbol self) = None ->
  makeOrders self w = (Raise (KeyError (productSymbol self)), w).
Proof.
  intros H. unfold makeOrders, bind, get_state, getitem. rewrite H.
  reflexivity.
Qed.

Lemma makeOrders_value (self : mm_Product_Strategy) (w : World)
  (od : OrderDepth) :
  Dict.get (order_depths (w_state w)) (productSymbol self) = Some od ->
  fst (makeOrders self w) = Return (engine self (w_state w) od).
Proof.
  intros H. destruct (makeOrders_run self w) as [t Ht].
  rewrite Ht, H. reflexivity.
Qed.

Lemma makeOrders_frame (self : mm_Product_Strategy) (w : World) :
  w_state (snd (makeOrders self w)) = w_state w.
Proof.
  destruct (makeOrders_run self w) as [t Ht]. rewrite Ht. reflexivity.
Qed.

(* ================================================================== *)
(** ** Facts about the two phases *)

Lemma adjust_prices_buy (self : mm_Product_Strategy) (fair pos : Z) :
  buy_price_rule self fair pos (fst (adjust_prices self fair pos)).
Proof.
  unfold buy_price_rule, adjust_prices. cbn [fst].
  destruct (Z.leb_spec pos (- custom_limit self)); split; intros; lia.
Qed.

Lemma adjust_prices_sell (self : mm_Product_Strategy) (fair pos : Z) :
  sell_price_rule self fair pos (snd (adjust_prices self fair pos)).
Proof.
  unfold sell_price_rule, adjust_prices. cbn [snd].
  rewrite Z.geb_leb.
  destruct (Z.leb_spec (custom_limit self) pos); split; intros; lia.
Qed.

Lemma sell_fills_takes (self : mm_Product_Strategy) (bp : Z) :
  forall levels pos,
    takes_sells self bp pos levels
                (fst (sell_fills self bp levels pos))
                (snd (sell_fills self bp levels pos)).
Proof.
  induction levels as [|[p v] rest IH]; intros pos; cbn [sell_fills].
  - constructor.
  - destruct (Z.leb_spec p bp) as [Hp|Hp];
      destruct (Z.leb_spec (pos - v) (limit self)) as [Hv|Hv];
      cbn [andb].
    + specialize (IH (pos - v)).
      destruct (sell_fills self bp rest (pos - v)) as [os pos'].
      cbn [fst snd] in *. now apply takes_sells_fill.
    + apply takes_sells_skip; [lia | apply IH].
    + apply takes_sells_skip; [lia | apply IH].
    + apply takes_sells_skip; [lia | apply IH].
Qed.

Lemma buy_fills_takes (self : mm_Product_Strategy) (sp : Z) :
  forall levels pos,
    takes_buys self sp pos levels
               (fst (buy_fills self sp levels pos))
               (snd (buy_fills self sp levels pos)).
Proof.
  induction levels as [|[p v] rest IH]; intros pos; cbn [buy_fills].
  - constructor.
  - rewrite !Z.geb_leb.
    destruct (Z.leb_spec sp p) as [Hp|Hp];
      destruct (Z.leb_spec (- limit self) (pos - v)) as [Hv|Hv];
      cbn [andb].
    + specialize (IH (pos - v)).
      destruct (buy_fills self sp rest (pos - v)) as [os pos'].
      cbn [fst snd] in *. apply takes_buys_fill; [lia | lia | assumption].
    + apply takes_buys_skip; [lia | apply IH].
    + apply takes_buys_skip; [lia | apply IH].
    + apply takes_buys_skip; [lia | apply IH].
Qed.

(** The running position of a walk is the starting position with the
    emitted orders applied. *)
Lemma takes_sells_position (self : mm_Product_Strategy) (bp : Z) :
  forall pos levels orders pos',
    takes_sells self bp pos levels orders pos' ->
    apply_orders pos orders = pos'.
Proof.
  induction 1 as [pos | pos p v levels orders pos' _ _ _ IH
                 | pos p v levels orders pos' _ _ IH];
    [reflexivity | exact IH | exact IH].
Qed.

Lemma takes_buys_position (self : mm_Product_Strategy) (sp : Z) :
  forall pos levels orders pos',
    takes_buys self sp pos levels orders pos' ->
    apply_orders pos orders = pos'.
Proof.
  induction 1 as [pos | pos p v levels orders pos' _ _ _ IH
                 | pos p v levels orders pos' _ _ IH];
    [reflexivity | exact IH | exact IH].
Qed.

Lemma apply_orders_app (pos : Z) (a b : list Order) :
  apply_orders pos (a ++ b) = apply_orders (apply_orders pos a) b.
Proof. unfold apply_orders. apply fold_left_app. Qed.

Lemma stays_within_app (lo hi : Z) :
  forall a pos b,
    stays_within lo hi pos a ->
    stays_within lo hi (apply_orders pos a) b ->
    stays_within lo hi pos (a ++ b).
Proof.
  induction a as [|o a IH]; intros pos b Ha Hb; cbn in *.
  - assumption.
  - destruct Ha as [Hpos Ha]. split; [assumption|]. now apply IH.
Qed.

Lemma stays_within_firstn (lo hi : Z) :
  forall orders pos k,
    stays_within lo hi pos orders ->
    lo <= apply_orders pos (firstn k orders) <= hi.
Proof.
  induction orders as [|o rest IH]; intros pos k H.
  - rewrite firstn_nil. cbn in *. tauto.
  - destruct k as [|k]; cbn in *; [tauto|]. apply IH. tauto.
Qed.

Lemma takes_sells_within (self : mm_Product_Strategy) (bp : Z) :
  forall pos levels orders pos',
    takes_sells self bp pos levels orders pos' ->
    Forall (fun pv => snd pv < 0) levels ->
    within_limit self pos ->
    stays_within (- limit self) (limit self) pos orders.
Proof.
  unfold within_limit.
  induction 1 as [pos | pos p v levels orders pos' Hp Hv Hw IH
                 | pos p v levels orders pos' Hn Hw IH];
    intros Hneg Hpos.
  - cbn. tauto.
  - inversion Hneg as [|? ? Hv0 Hrest]; subst. cbn in Hv0.
    cbn. split; [assumption|]. unfold apply_order. cbn.
    replace (pos + - v) with (pos - v) by lia.
    apply IH; [assumption | lia].
  - inversion Hneg; subst. now apply IH.
Qed.

Lemma takes_buys_within (self : mm_Product_Strategy) (sp : Z) :
  forall pos levels orders pos',
    takes_buys self sp pos levels orders pos' ->
    Forall (fun pv => 0 < snd pv) levels ->
    within_limit self pos ->
    stays_within (- limit self) (limit self) pos orders.
Proof.
  unfold within_limit.
  induction 1 as [pos | pos p v levels orders pos' Hp Hv Hw IH
                 | pos p v levels orders pos' Hn Hw IH];
    intros Hneg Hpos.
  - cbn. tauto.
  - inversion Hneg as [|? ? Hv0 Hrest]; subst. cbn in Hv0.
    cbn. split; [assumption|]. unfold apply_order. cbn.
    replace (pos + - v) with (pos - v) by lia.
    apply IH; [assumption | lia].
  - inversion Hneg; subst. now apply IH.
Qed.

Lemma stays_within_last (lo hi : Z) :
  forall orders pos,
    stays_within lo hi pos orders ->
    lo <= apply_orders pos orders <= hi.
Proof.
  intros orders pos H.
  rewrite <- (firstn_all orders). now apply stays_within_firstn.
Qed.

(** Phase 1 as a whole. *)
Lemma phase1_spec (self : mm_Product_Strategy) (fair pos : Z)
  (od : OrderDepth) :
  exists bp sp os1 p1 os2 p2,
    adjust_prices self fair pos = (bp, sp) /\
    sell_fills self bp (sell_orders od) pos = (os1, p1) /\
    buy_fills self sp (buy_orders od) p1 = (os2, p2) /\
    takes_sells self bp pos (sell_orders od) os1 p1 /\
    takes_buys self sp p1 (buy_orders od) os2 p2 /\
    phase1 self fair pos od = (os1 ++ os2, p2) /\
    apply_orders pos (os1 ++ os2) = p2.
Proof.
  unfold phase1.
  destruct (adjust_prices self fair pos) as [bp sp].
  pose proof (sell_fills_takes self bp (sell_orders od) pos) as Hs.
  destruct (sell_fills self bp (sell_orders od) pos) as [os1 p1] eqn:E1.
  pose proof (buy_fills_takes self sp (buy_orders od) p1) as Hb.
  destruct (buy_fills self sp (buy_orders od) p1) as [os2 p2] eqn:E2.
  cbn [fst snd] in *.
  exists bp, sp, os1, p1, os2, p2.
  split; [reflexivity|]. split; [assumption|]. split; [assumption|].
  split; [assumption|]. split; [assumption|]. split; [reflexivity|].
  rewrite apply_orders_app.
  rewrite (takes_sells_position _ _ _ _ _ _ Hs).
  apply (takes_buys_position _ _ _ _ _ _ Hb).
Qed.

Lemma phase1_within (self : mm_Product_Strategy) (fair pos : Z)
  (od : OrderDepth) :
  within_limit self pos ->
  Forall (fun pv => snd pv < 0) (sell_orders od) ->
  Forall (fun pv => 0 < snd pv) (buy_orders od) ->
  stays_within (- limit self) (limit self) pos
               (fst (phase1 self fair pos od)) /\
  within_limit self (snd (phase1 self fair pos od)).
Proof.
  intros Hpos Hs Hb.
  destruct (phase1_spec self fair pos od)
    as (bp & sp & os1 & p1 & os2 & p2 & _ & _ & _ & Ts & Tb & E & Ep).
  rewrite E. cbn [fst snd].
  pose proof (takes_sells_within _ _ _ _ _ _ Ts Hs Hpos) as W1.
  pose proof (takes_sells_position _ _ _ _ _ _ Ts) as P1.
  assert (Hp1 : within_limit self p1).
  { rewrite <- P1. apply stays_within_last, W1. }
  pose proof (takes_buys_within _ _ _ _ _ _ Tb Hb Hp1) as W2.
  assert (W : stays_within (- limit self) (limit self) pos (os1 ++ os2)).
  { apply stays_within_app; [assumption|]. now rewrite P1. }
  split; [assumption|].
  rewrite <- Ep. apply stays_within_last, W.
Qed.

(** The walks of step 3 are functions of their inputs. *)
Lemma takes_sells_fun (self : mm_Product_Strategy) (bp : Z) :
  forall pos levels orders pos',
    takes_sells self bp pos levels orders pos' ->
    sell_fills self bp levels pos = (orders, pos').
Proof.
  induction 1 as [pos | pos p v levels orders pos' Hp Hv _ IH
                 | pos p v levels orders pos' Hn _ IH];
    cbn [sell_fills].
  - reflexivity.
  - apply Z.leb_le in Hp, Hv. rewrite Hp, Hv, IH. reflexivity.
  - destruct (Z.leb_spec p bp); destruct (Z.leb_spec (pos - v) (limit self));
      cbn [andb]; try assumption.
    exfalso. apply Hn. split; assumption.
Qed.

Lemma takes_buys_fun (self : mm_Product_Strategy) (sp : Z) :
  forall pos levels orders pos',
    takes_buys self sp pos levels orders pos' ->
    buy_fills self sp levels pos = (orders, pos').
Proof.
  induction 1 as [pos | pos p v levels orders pos' Hp Hv _ IH
                 | pos p v levels orders pos' Hn _ IH];
    cbn [buy_fills].
  - reflexivity.
  - rewrite !Z.geb_leb.
    assert (Hp' : (sp <=? p) = true) by (apply Z.leb_le; lia).
    assert (Hv' : (- limit self <=? pos - v) = true) by (apply Z.leb_le; lia).
    rewrite Hp', Hv', IH. reflexivity.
  - rewrite !Z.geb_leb.
    destruct (Z.leb_spec sp p);
      destruct (Z.leb_spec (- limit self) (pos - v));
      cbn [andb]; try assumption.
    exfalso. apply Hn. split; lia.
Qed.

Lemma buy_price_rule_fun (self : mm_Product_Strategy) (fair pos bp : Z) :
  buy_price_rule self fair pos bp ->
  bp = fst (adjust_prices self fair pos).
Proof.
  intros [H1 H2]. unfold adjust_prices. cbn [fst].
  destruct (Z.leb_spec pos (- custom_limit self)); [apply H1 | apply H2]; lia.
Qed.

Lemma sell_price_rule_fun (self : mm_Product_Strategy) (fair pos sp : Z) :
  sell_price_rule self fair pos sp ->
  sp = snd (adjust_prices self fair pos).
Proof.
  intros [H1 H2]. unfold adjust_prices. cbn [snd]. rewrite Z.geb_leb.
  destruct (Z.leb_spec (custom_limit self) pos); [apply H1 | apply H2]; lia.
Qed.

Lemma phase1_leaves_fun (self : mm_Product_Strategy) (fair pos0 : Z)
  (od : OrderDepth) (orders : list Order) (pos : Z) :
  phase1_leaves self fair pos0 od orders pos ->
  phase1 self fair pos0 od = (orders, pos).
Proof.
  intros (bp & sp & os1 & p1 & os2 & Hb & Hs & Ts & Tb & ->).
  unfold phase1.
  apply buy_price_rule_fun in Hb. apply sell_price_rule_fun in Hs.
  destruct (adjust_prices self fair pos0) as [bp' sp'].
  cbn [fst snd] in *. subst bp' sp'.
  rewrite (takes_sells_fun _ _ _ _ _ _ Ts).
  rewrite (takes_buys_fun _ _ _ _ _ _ Tb). reflexivity.
Qed.

(** Phase 1 always leaves some orders and some position. *)
Lemma phase1_leaves_ex (self : mm_Product_Strategy) (fair pos0 : Z)
  (od : OrderDepth) :
  phase1_leaves self fair pos0 od (fst (phase1 self fair pos0 od))
                (snd (phase1 self fair pos0 od)).
Proof.
  destruct (phase1_spec self fair pos0 od)
    as (bp & sp & os1 & p1 & os2 & p2 & Ea & _ & _ & Ts & Tb & E & _).
  rewrite E. cbn [fst snd].
  exists bp, sp, os1, p1, os2.
  pose proof (adjust_prices_buy self fair pos0) as Hb.
  pose proof (adjust_prices_sell self fair pos0) as Hs.
  rewrite Ea in Hb, Hs. cbn [fst snd] in *.
  repeat (split; [assumption|]). reflexivity.
Qed.

Lemma makeOrders_phases (self : mm_Product_Strategy) (w : World)
  (od : OrderDepth) (orders : list Order) (pos : Z) :
  Dict.get (order_depths (w_state w)) (productSymbol self) = Some od ->
  phase1_leaves self (fairValue self (w_state w))
                (starting_position self (w_state w)) od orders pos ->
  fst (makeOrders self w)
  = Return (orders ++ phase2 self (fairValue self (w_state w)) pos).
Proof.
  intros Hod Hp. rewrite (makeOrders_value self w od Hod).
  unfold engine. rewrite (phase1_leaves_fun _ _ _ _ _ _ Hp). reflexivity.
Qed.

Lemma contains_get_none {V : Type} (d : Dict.t V) (k : string) :
  Dict.contains d k = false <-> Dict.get d k = None.
Proof.
  unfold Dict.contains. destruct (Dict.get d k); split; congruence.
Qed.

Lemma contains_get_some {V : Type} (d : Dict.t V) (k : string) :
  Dict.contains d k = true <-> exists v, Dict.get d k = Some v.
Proof.
  unfold Dict.contains. destruct (Dict.get d k) as [v|]; split.
  - eauto.
  - reflexivity.
  - discriminate.
  - intros [v H]. discriminate.
Qed.

(* ================================================================== *)
(** ** The position bound (C1) *)

Lemma phase2_prefix (self : mm_Product_Strategy) (fair pos : Z) (j : nat) :
  within_limit self pos ->
  2 * custom_limit self - 1 <= limit self
  \/ j <> (List.length (phase2 self fair pos) - 1)%nat
  \/ j = 0%nat ->
  within_limit self (apply_orders pos (firstn j (phase2 self fair pos))).
Proof.
  unfold within_limit, phase2, quotes. intros Hpos.
  destruct (adjust_prices self fair pos) as [bp sp].
  rewrite Z.geb_leb.
  destruct (Z.leb_spec pos (- custom_limit self));
    [|destruct (Z.leb_spec (custom_limit self) pos)];
    cbn [List.length]; intros Hj.
  - destruct j as [|j]; cbn; [lia|].
    rewrite firstn_nil. cbn. unfold apply_order. cbn. lia.
  - destruct j as [|j]; cbn; [lia|].
    rewrite firstn_nil. cbn. unfold apply_order. cbn. lia.
  - destruct j as [|[|j]]; cbn.
    + lia.
    + unfold apply_order. cbn. lia.
    + rewrite firstn_nil. cbn. unfold apply_order. cbn. lia.
Qed.

Lemma phase2_band_length (self : mm_Product_Strategy) (fair pos : Z) :
  - custom_limit self < pos < custom_limit self ->
  List.length (phase2 self fair pos) = 2%nat.
Proof.
  intros Hband. unfold phase2, quotes.
  destruct (adjust_prices self fair pos) as [bp sp]. rewrite Z.geb_leb.
  destruct (Z.leb_spec pos (- custom_limit self)); [lia|].
  destruct (Z.leb_spec (custom_limit self) pos); [lia|]. reflexivity.
Qed.

(** After phase 1, the only prefix of the phase-2 orders that can leave
    the limit is the buy quote of the normal band on its own. *)
Lemma phase2_prefix_exact (self : mm_Product_Strategy) (fair pos : Z)
  (j : nat) :
  within_limit self pos ->
  (0 < j)%nat ->
  within_limit self (apply_orders pos (firstn j (phase2 self fair pos)))
  <-> ~ (j = (List.length (phase2 self fair pos) - 1)%nat /\
         - custom_limit self < pos < custom_limit self /\
         limit self < pos + custom_limit self).
Proof.
  unfold within_limit, phase2, quotes. intros Hpos Hj.
  destruct (adjust_prices self fair pos) as [bp sp].
  rewrite Z.geb_leb.
  destruct (Z.leb_spec pos (- custom_limit self));
    [|destruct (Z.leb_spec (custom_limit self) pos)];
    cbn [List.length].
  - destruct j as [|j]; [lia|]. cbn [firstn]. rewrite firstn_nil.
    cbn. unfold apply_order. cbn. split; intros; lia.
  - destruct j as [|j]; [lia|]. cbn [firstn]. rewrite firstn_nil.
    cbn. unfold apply_order. cbn. split; intros; lia.
  - destruct j as [|[|j]]; [lia| |].
    + cbn. unfold apply_order. cbn. split.
      * intros H1 (_ & _ & H2). lia.
      * intros H1. split; [lia|].
        destruct (Z.le_gt_cases (pos + custom_limit self) (limit self));
          [assumption|].
        exfalso. apply H1. split; [reflexivity|]. split; lia.
    + cbn [firstn]. rewrite firstn_nil. cbn. unfold apply_order. cbn.
      split; intros; lia.
Qed.

(** C1, amended.  With the book of the instrument present, the starting
    position within [-limit, limit], sell-side volumes negative and
    buy-side volumes positive, [makeOrders] returns a list [orders] such
    that the starting position with the first [k] orders applied is
    within [-limit, limit] for every [k], with one exception and no
    other: the prefix that ends with the buy quote of the normal band
    ([k = length orders - 1] when the position [pos] phase 1 leaves is
    strictly within the custom limits) is within the limit exactly when
    [pos + custom_limit <= limit].  So the bound holds at every prefix
    of phase 1, at the end of phase 1, after the order of a liquidation
    and after all the orders; and at every prefix when
    [2 * custom_limit - 1 <= limit]. *)
Theorem position_bound (self : mm_Product_Strategy) (w : World)
  (od : OrderDepth) :
  Dict.get (order_depths (w_state w)) (productSymbol self) = Some od ->
  within_limit self (starting_position self (w_state w)) ->
  Forall (fun pv => snd pv < 0) (sell_orders od) ->
  Forall (fun pv => 0 < snd pv) (buy_orders od) ->
  exists orders taken pos,
    fst (makeOrders self w) = Return orders /\
    phase1_leaves self (fairValue self (w_state w))
                  (starting_position self (w_state w)) od taken pos /\
    (forall k : nat,
       within_limit self
         (apply_orders (starting_position self (w_state w))
                       (firstn k orders))
       <-> ~ (k = (List.length orders - 1)%nat /\
              - custom_limit self < pos < custom_limit self /\
              limit self < pos + custom_limit self)) /\
    (2 * custom_limit self - 1 <= limit self ->
     forall k : nat,
       within_limit self
         (apply_orders (starting_position self (w_state w))
                       (firstn k orders))).
Proof.
  intros Hod Hpos Hs Hb.
  set (fair := fairValue self (w_state w)).
  set (pos0 := starting_position self (w_state w)) in *.
  pose proof (phase1_leaves_ex self fair pos0 od) as Hl.
  destruct (phase1_within self fair pos0 od Hpos Hs Hb) as [W1 W2].
  destruct (phase1_spec self fair pos0 od)
    as (_ & _ & os1 & _ & os2 & p2 & _ & _ & _ & _ & _ & E & Ep).
  rewrite E in Hl, W1, W2. cbn [fst snd] in Hl, W1, W2.
  assert (Hiff : forall k : nat,
             within_limit self
               (apply_orders pos0
                  (firstn k ((os1 ++ os2) ++ phase2 self fair p2)))
             <-> ~ (k = (List.length ((os1 ++ os2) ++ phase2 self fair p2)
                         - 1)%nat /\
                    - custom_limit self < p2 < custom_limit self /\
                    limit self < p2 + custom_limit self)).
  { intros k. rewrite firstn_app, apply_orders_app.
    rewrite (length_app (os1 ++ os2)).
    destruct (Nat.le_gt_cases k (List.length (os1 ++ os2))) as [Hle|Hgt].
    - replace (k - List.length (os1 ++ os2))%nat with 0%nat by lia.
      cbn [firstn]. split.
      + intros _ (Hk & Hband & _).
        rewrite (phase2_band_length self fair p2 Hband) in Hk. lia.
      + intros _. now apply stays_within_firstn.
    - rewrite firstn_all2 by lia. rewrite Ep.
      rewrite (phase2_prefix_exact self fair p2
                 (k - List.length (os1 ++ os2)) W2) by lia.
      split; intros H (Hk & Hrest); apply H; (split; [lia | exact Hrest]). }
  exists ((os1 ++ os2) ++ phase2 self fair p2), (os1 ++ os2), p2.
  split.
  { rewrite (makeOrders_value self w od Hod). unfold engine.
    fold fair pos0. rewrite E. reflexivity. }
  split; [exact Hl|]. split; [exact Hiff|].
  intros Hc k. apply Hiff. intros (_ & Hband & Hover). lia.
Qed.

(** Limit 50, custom limit 40, position 45 and one ask of 5 at 9990:
    phase 1 buys 5 and leaves 50, phase 2 sells 50. *)
Lemma position_bound_witness :
  let self := wide_strategy in
  let od := mkOrderDepth [] [(9990, -5)] in
  let w := fresh (snapshot od [("RAINFOREST_RESIN", 45)]) in
  exists orders taken pos,
    fst (makeOrders self w) = Return orders /\
    phase1_leaves self (fairValue self (w_state w))
                  (starting_position self (w_state w)) od taken pos /\
    (forall k : nat,
       within_limit self
         (apply_orders (starting_position self (w_state w))
                       (firstn k orders))
       <-> ~ (k = (List.length orders - 1)%nat /\
              - custom_limit self < pos < custom_limit self /\
              limit self < pos + custom_limit self)) /\
    (2 * custom_limit self - 1 <= limit self ->
     forall k : nat,
       within_limit self
         (apply_orders (starting_position self (w_state w))
                       (firstn k orders))).
Proof.
  apply (position_bound
           wide_strategy
           (fresh (snapshot (mkOrderDepth [] [(9990, -5)])
                            [("RAINFOREST_RESIN", 45)]))
           (mkOrderDepth [] [(9990, -5)])).
  - reflexivity.
  - unfold within_limit. cbn. lia.
  - repeat constructor.
  - repeat constructor.
Defined.

(** C1 as stated fails: with limit 50, custom limit 40, position 30 and
    an empty book the hypotheses hold, [makeOrders] returns a buy of 40
    and a sell of 40, and after the first of them the position is 70. *)
Lemma position_bound_counterexample :
  let self := wide_strategy in
  let w := fresh (snapshot empty_book [("RAINFOREST_RESIN", 30)]) in
  Dict.get (order_depths (w_state w)) (productSymbol self) = Some empty_book /\
  within_limit self (starting_position self (w_state w)) /\
  Forall (fun pv => snd pv < 0) (sell_orders empty_book) /\
  Forall (fun pv => 0 < snd pv) (buy_orders empty_book) /\
  custom_limit self <= limit self /\
  fst (makeOrders self w)
  = Return [mkOrder "RAINFOREST_RESIN" 9998 40;
            mkOrder "RAINFOREST_RESIN" 10002 (-40)] /\
  apply_orders (starting_position self (w_state w))
               (firstn 1 [mkOrder "RAINFOREST_RESIN" 9998 40;
                          mkOrder "RAINFOREST_RESIN" 10002 (-40)]) = 70 /\
  ~ within_limit self 70.
Proof.
  cbv zeta. unfold within_limit.
  repeat split; try reflexivity; try constructor; cbn; try lia.
  all: try discriminate.
Qed.

(* ================================================================== *)
(** ** The first scenario (C2) *)

(** C2.  With the resin strategy (fair value 10000, spread 2, custom
    limit 15, liquidation offset 0, limit 50), starting position 0, sell
    levels {9998: -5} and buy levels {10002: 4}, [makeOrders] returns
    exactly: buy 5 at 9998, sell 4 at 10002, buy 15 at 9998, sell 15 at
    10002, in this order. *)
Theorem scenario_orders (w : World) :
  Dict.get (order_depths (w_state w)) "RAINFOREST_RESIN"
  = Some (mkOrderDepth [(10002, 4)] [(9998, -5)]) ->
  starting_position Rainforest_Resin_Strategy (w_state w) = 0 ->
  fst (makeOrders Rainforest_Resin_Strategy w)
  = Return [mkOrder "RAINFOREST_RESIN" 9998 5;
            mkOrder "RAINFOREST_RESIN" 10002 (-4);
            mkOrder "RAINFOREST_RESIN" 9998 15;
            mkOrder "RAINFOREST_RESIN" 10002 (-15)].
Proof.
  intros Hod Hpos.
  rewrite (makeOrders_value Rainforest_Resin_Strategy w _ Hod).
  unfold engine. rewrite Hpos. reflexivity.
Qed.

Lemma scenario_orders_witness :
  fst (makeOrders Rainforest_Resin_Strategy
                  (fresh (snapshot scenario_book [])))
  = Return [mkOrder "RAINFOREST_RESIN" 9998 5;
            mkOrder "RAINFOREST_RESIN" 10002 (-4);
            mkOrder "RAINFOREST_RESIN" 9998 15;
            mkOrder "RAINFOREST_RESIN" 10002 (-15)].
Proof.
  apply (scenario_orders (fresh (snapshot scenario_book []))).
  - reflexivity.
  - reflexivity.
Defined.

(* ================================================================== *)
(** ** Skewed prices before and after phase 1 (C3) *)

(** C3.  The prices phase 1 compares against obey the rule of step 2 at
    the starting position, and the prices phase 2 quotes obey the same
    rule at the running position phase 1 leaves: the buy price is
    [fair + liquidate_val] when the position is at most [-custom_limit]
    and [fair - spread] otherwise; the sell price is
    [fair - liquidate_val] when the position is at least [custom_limit]
    and [fair + spread] otherwise. *)
Theorem skewed_prices_twice (self : mm_Product_Strategy) (w : World)
  (od : OrderDepth) :
  Dict.get (order_depths (w_state w)) (productSymbol self) = Some od ->
  let fair := fairValue self (w_state w) in
  let pos0 := starting_position self (w_state w) in
  exists bp1 sp1 os1 p1 os2 p2 bp2 sp2,
    buy_price_rule self fair pos0 bp1 /\
    sell_price_rule self fair pos0 sp1 /\
    sell_fills self bp1 (sell_orders od) pos0 = (os1, p1) /\
    buy_fills self sp1 (buy_orders od) p1 = (os2, p2) /\
    p2 = apply_orders pos0 (os1 ++ os2) /\
    buy_price_rule self fair p2 bp2 /\
    sell_price_rule self fair p2 sp2 /\
    fst (makeOrders self w)
    = Return ((os1 ++ os2) ++ quotes self bp2 sp2 p2).
Proof.
  intros Hod fair pos0.
  destruct (phase1_spec self fair pos0 od)
    as (bp & sp & os1 & p1 & os2 & p2 & Ea & E1 & E2 & _ & _ & E & Ep).
  exists bp, sp, os1, p1, os2, p2,
    (fst (adjust_prices self fair p2)), (snd (adjust_prices self fair p2)).
  pose proof (adjust_prices_buy self fair pos0) as Hb.
  pose proof (adjust_prices_sell self fair pos0) as Hs.
  rewrite Ea in Hb, Hs. cbn [fst snd] in Hb, Hs.
  split; [assumption|]. split; [assumption|].
  split; [assumption|]. split; [assumption|].
  split; [now symmetry|].
  split; [apply adjust_prices_buy|]. split; [apply adjust_prices_sell|].
  rewrite (makeOrders_value self w od Hod).
  unfold engine. fold fair pos0. rewrite E. unfold phase2.
  destruct (adjust_prices self fair p2). reflexivity.
Qed.

Lemma skewed_prices_twice_witness :
  let self := Rainforest_Resin_Strategy in
  let w := fresh (snapshot scenario_book [("RAINFOREST_RESIN", -20)]) in
  let fair := fairValue self (w_state w) in
  let pos0 := starting_position self (w_state w) in
  exists bp1 sp1 os1 p1 os2 p2 bp2 sp2,
    buy_price_rule self fair pos0 bp1 /\
    sell_price_rule self fair pos0 sp1 /\
    sell_fills self bp1 (sell_orders scenario_book) pos0 = (os1, p1) /\
    buy_fills self sp1 (buy_orders scenario_book) p1 = (os2, p2) /\
    p2 = apply_orders pos0 (os1 ++ os2) /\
    buy_price_rule self fair p2 bp2 /\
    sell_price_rule self fair p2 sp2 /\
    fst (makeOrders self w)
    = Return ((os1 ++ os2) ++ quotes self bp2 sp2 p2).
Proof.
  apply (skewed_prices_twice
           Rainforest_Resin_Strategy
           (fresh (snapshot scenario_book [("RAINFOREST_RESIN", -20)]))
           scenario_book).
  reflexivity.
Defined.

(* ================================================================== *)
(** ** Phase 2 in the normal band (C4) *)

(** C4.  When the running position phase 1 leaves lies strictly between
    [-custom_limit] and [custom_limit], [makeOrders] returns the orders
    of phase 1 followed by exactly one buy of [custom_limit] at
    [fair - spread] and one sell of [custom_limit] at [fair + spread],
    whatever the position in the band and the headroom under [limit]. *)
Theorem normal_band_quotes (self : mm_Product_Strategy) (w : World)
  (od : OrderDepth) (taken : list Order) (pos : Z) :
  Dict.get (order_depths (w_state w)) (productSymbol self) = Some od ->
  phase1_leaves self (fairValue self (w_state w))
                (starting_position self (w_state w)) od taken pos ->
  - custom_limit self < pos < custom_limit self ->
  fst (makeOrders self w)
  = Return (taken
              ++ [mkOrder (productSymbol self)
                          (fairValue self (w_state w) - spread self)
                          (custom_limit self);
                  mkOrder (productSymbol self)
                          (fairValue self (w_state w) + spread self)
                          (- custom_limit self)]).
Proof.
  intros Hod Hp Hband.
  rewrite (makeOrders_phases self w od taken pos Hod Hp).
  unfold phase2, adjust_prices, quotes. rewrite Z.geb_leb.
  destruct (Z.leb_spec pos (- custom_limit self)); [lia|].
  destruct (Z.leb_spec (custom_limit self) pos); [lia|].
  reflexivity.
Qed.

(** With custom limit 40 and limit 50, phase 1 buys 5 and sells 4 from
    position 36 and leaves 37: the quotes are still 40 each, above the
    headroom of 13. *)
Lemma normal_band_quotes_witness :
  fst (makeOrders wide_strategy
         (fresh (snapshot scenario_book [("RAINFOREST_RESIN", 36)])))
  = Return ([mkOrder "RAINFOREST_RESIN" 9998 5;
             mkOrder "RAINFOREST_RESIN" 10002 (-4)]
              ++ [mkOrder "RAINFOREST_RESIN" (10000 - 2) 40;
                  mkOrder "RAINFOREST_RESIN" (10000 + 2) (- 40)]).
Proof.
  apply (normal_band_quotes
           wide_strategy
           (fresh (snapshot scenario_book [("RAINFOREST_RESIN", 36)]))
           scenario_book
           [mkOrder "RAINFOREST_RESIN" 9998 5;
            mkOrder "RAINFOREST_RESIN" 10002 (-4)]
           37).
  - reflexivity.
  - exists 9998, 10002, [mkOrder "RAINFOREST_RESIN" 9998 5], 41,
      [mkOrder "RAINFOREST_RESIN" 10002 (-4)].
    split; [split; cbn; lia|].
    split; [split; cbn; lia|].
    split.
    { apply (takes_sells_fill wide_strategy 9998 36 9998 (-5) [] [] 41);
        [lia | cbn; lia | constructor]. }
    split.
    { apply (takes_buys_fill wide_strategy 10002 41 10002 4 [] [] 37);
        [lia | cbn; lia | constructor]. }
    reflexivity.
  - cbn. lia.
Defined.

(* ================================================================== *)
(** ** Phase 2 when severely short (C5) *)

(** C5.  When the running position [pos] phase 1 leaves is at most
    [-custom_limit], [makeOrders] returns the orders of phase 1 followed
    by exactly one order, of quantity [-pos], at [fair + liquidate_val];
    applied to [pos] it gives 0, and it is a buy (positive quantity) for a
    positive custom limit.  With starting position -20, custom limit 15
    and an empty book the whole output is one buy of 20 at
    [fair + liquidate_val]. *)
Theorem short_liquidation (self : mm_Product_Strategy) (w : World)
  (od : OrderDepth) :
  Dict.get (order_depths (w_state w)) (productSymbol self) = Some od ->
  (forall taken pos,
     phase1_leaves self (fairValue self (w_state w))
                   (starting_position self (w_state w)) od taken pos ->
     pos <= - custom_limit self ->
     let o := mkOrder (productSymbol self)
                      (fairValue self (w_state w) + liquidate_val self)
                      (- pos) in
     fst (makeOrders self w) = Return (taken ++ [o]) /\
     apply_order pos o = 0 /\
     (0 < custom_limit self -> 0 < quantity o)) /\
  (custom_limit self = 15 ->
   starting_position self (w_state w) = -20 ->
   od = mkOrderDepth [] [] ->
   fst (makeOrders self w)
   = Return [mkOrder (productSymbol self)
                     (fairValue self (w_state w) + liquidate_val self) 20]).
Proof.
  intros Hod. split.
  - intros taken pos Hp Hshort o. subst o.
    rewrite (makeOrders_phases self w od taken pos Hod Hp).
    unfold phase2, adjust_prices, quotes, apply_order. cbn [quantity].
    destruct (Z.leb_spec pos (- custom_limit self)); [|lia].
    split; [reflexivity|]. split; lia.
  - intros Hc Hpos ->.
    rewrite (makeOrders_value self w _ Hod).
    unfold engine, phase1, phase2, adjust_prices, quotes.
    rewrite Hpos, Hc. reflexivity.
Qed.

Lemma short_liquidation_witness :
  let self := Rainforest_Resin_Strategy in
  let w := fresh (snapshot empty_book [("RAINFOREST_RESIN", -20)]) in
  (forall taken pos,
     phase1_leaves self (fairValue self (w_state w))
                   (starting_position self (w_state w)) empty_book taken pos ->
     pos <= - custom_limit self ->
     let o := mkOrder (productSymbol self)
                      (fairValue self (w_state w) + liquidate_val self)
                      (- pos) in
     fst (makeOrders self w) = Return (taken ++ [o]) /\
     apply_order pos o = 0 /\
     (0 < custom_limit self -> 0 < quantity o)) /\
  fst (makeOrders self w) = Return [mkOrder "RAINFOREST_RESIN" 10000 20].
Proof.
  intros self w.
  destruct (short_liquidation self w empty_book eq_refl) as [H1 H2].
  split.
  - exact H1.
  - exact (H2 eq_refl eq_refl eq_refl).
Defined.

(* ================================================================== *)
(** ** Phase 1 takes every fair level (C6) *)

(** C6.  [makeOrders] returns first the orders of the walk over the
    sell-side levels, then those of the walk over the buy-side levels,
    then the orders of phase 2.  In the first walk ([takes_sells]) a level
    yields a buy of its whole volume exactly when its price is at most
    the buy price and the fill keeps the running position at most
    [limit]; in the second ([takes_buys]) a level yields a sell exactly
    when its price is at least the sell price and the fill keeps the
    running position at least [-limit]; the running position follows
    each fill and every level is visited. *)
Theorem phase1_takes_levels (self : mm_Product_Strategy) (w : World)
  (od : OrderDepth) :
  Dict.get (order_depths (w_state w)) (productSymbol self) = Some od ->
  let fair := fairValue self (w_state w) in
  let pos0 := starting_position self (w_state w) in
  exists bp sp os1 p1 os2 p2,
    buy_price_rule self fair pos0 bp /\
    sell_price_rule self fair pos0 sp /\
    takes_sells self bp pos0 (sell_orders od) os1 p1 /\
    takes_buys self sp p1 (buy_orders od) os2 p2 /\
    fst (makeOrders self w) = Return ((os1 ++ os2) ++ phase2 self fair p2).
Proof.
  intros Hod fair pos0.
  destruct (phase1_spec self fair pos0 od)
    as (bp & sp & os1 & p1 & os2 & p2 & Ea & _ & _ & Ts & Tb & E & _).
  exists bp, sp, os1, p1, os2, p2.
  pose proof (adjust_prices_buy self fair pos0) as Hb.
  pose proof (adjust_prices_sell self fair pos0) as Hs.
  rewrite Ea in Hb, Hs. cbn [fst snd] in Hb, Hs.
  repeat (split; [assumption|]).
  rewrite (makeOrders_value self w od Hod).
  unfold engine. fold fair pos0. rewrite E. reflexivity.
Qed.

Lemma phase1_takes_levels_witness :
  let self := Rainforest_Resin_Strategy in
  let w := fresh (snapshot scenario_book []) in
  let fair := fairValue self (w_state w) in
  let pos0 := starting_position self (w_state w) in
  exists bp sp os1 p1 os2 p2,
    buy_price_rule self fair pos0 bp /\
    sell_price_rule self fair pos0 sp /\
    takes_sells self bp pos0 (sell_orders scenario_book) os1 p1 /\
    takes_buys self sp p1 (buy_orders scenario_book) os2 p2 /\
    fst (makeOrders self w) = Return ((os1 ++ os2) ++ phase2 self fair p2).
Proof.
  apply (phase1_takes_levels Rainforest_Resin_Strategy
                             (fresh (snapshot scenario_book []))
                             scenario_book).
  reflexivity.
Defined.

(* ================================================================== *)
(** ** Missing entries (C7) *)

(** C7.  When the order-depth table has no entry for the instrument,
    [makeOrders] raises [KeyError] for it and leaves the world as it
    was.  When the book is there and the position table has no entry for
    the instrument, the starting position is 0 and [makeOrders] returns
    the orders of the two phases from position 0. *)
Theorem missing_entries (self : mm_Product_Strategy) (w : World) :
  (Dict.contains (order_depths (w_state w)) (productSymbol self) = false ->
   makeOrders self w = (Raise (KeyError (productSymbol self)), w)) /\
  (forall od,
     Dict.get (order_depths (w_state w)) (productSymbol self) = Some od ->
     Dict.contains (position (w_state w)) (productSymbol self) = false ->
     starting_position self (w_state w) = 0 /\
     fst (makeOrders self w)
     = Return (fst (phase1 self (fairValue self (w_state w)) 0 od)
                 ++ phase2 self (fairValue self (w_state w))
                           (snd (phase1 self (fairValue self (w_state w))
                                        0 od)))).
Proof.
  split.
  - intros H. apply makeOrders_no_book. now apply contains_get_none.
  - intros od Hod Hpos.
    assert (H0 : starting_position self (w_state w) = 0).
    { unfold starting_position. rewrite Hpos. reflexivity. }
    split; [assumption|].
    rewrite (makeOrders_value self w od Hod).
    unfold engine. rewrite H0.
    destruct (phase1 self (fairValue self (w_state w)) 0 od). reflexivity.
Qed.

(** A snapshot without any order book, and the scenario snapshot, whose
    position table is empty. *)
Lemma missing_entries_witness :
  makeOrders Rainforest_Resin_Strategy
             (fresh (mkTradingState "" 0 [] [] [] [] []
                                    (mkObservation [] [])))
  = (Raise (KeyError "RAINFOREST_RESIN"),
     fresh (mkTradingState "" 0 [] [] [] [] [] (mkObservation [] [])))
  /\
  (starting_position Rainforest_Resin_Strategy (snapshot scenario_book [])
   = 0 /\
   fst (makeOrders Rainforest_Resin_Strategy
                   (fresh (snapshot scenario_book [])))
   = Return [mkOrder "RAINFOREST_RESIN" 9998 5;
             mkOrder "RAINFOREST_RESIN" 10002 (-4);
             mkOrder "RAINFOREST_RESIN" 9998 15;
             mkOrder "RAINFOREST_RESIN" 10002 (-15)]).
Proof.
  split.
  - apply (proj1 (missing_entries
                    Rainforest_Resin_Strategy
                    (fresh (mkTradingState "" 0 [] [] [] [] []
                                           (mkObservation [] []))))).
    reflexivity.
  - apply (proj2 (missing_entries Rainforest_Resin_Strategy
                                  (fresh (snapshot scenario_book [])))
                 scenario_book); reflexivity.
Defined.

(* ================================================================== *)
(** ** Determinism and the untouched snapshot (C8) *)

(** C8.  Two calls of [makeOrders] with the same parameters on worlds
    that hold equal snapshots return the same outcome, whatever the
    logger holds and whatever was printed before; and a call leaves the
    snapshot and the printed lines as they were. *)
Theorem makeOrders_pure (self : mm_Product_Strategy) (w1 w2 : World) :
  w_state w1 = w_state w2 ->
  fst (makeOrders self w1) = fst (makeOrders self w2) /\
  w_state (snd (makeOrders self w1)) = w_state w1 /\
  w_state (snd (makeOrders self w2)) = w_state w2 /\
  w_stdout (snd (makeOrders self w1)) = w_stdout w1.
Proof.
  intros H.
  destruct (makeOrders_run self w1) as [t1 H1].
  destruct (makeOrders_run self w2) as [t2 H2].
  rewrite H1, H2. cbn [fst snd].
  split; [rewrite H; reflexivity|].
  repeat split; reflexivity.
Qed.

Lemma makeOrders_pure_witness :
  let w1 := fresh (snapshot scenario_book []) in
  let w2 := mkWorld (snapshot scenario_book [])
                    (mkLogger "BUY 1x 9990" 3750) ["[]"] in
  fst (makeOrders Rainforest_Resin_Strategy w1)
  = fst (makeOrders Rainforest_Resin_Strategy w2) /\
  w_state (snd (makeOrders Rainforest_Resin_Strategy w1)) = w_state w1 /\
  w_state (snd (makeOrders Rainforest_Resin_Strategy w2)) = w_state w2 /\
  w_stdout (snd (makeOrders Rainforest_Resin_Strategy w1)) = w_stdout w1.
Proof.
  apply (makeOrders_pure
           Rainforest_Resin_Strategy
           (fresh (snapshot scenario_book []))
           (mkWorld (snapshot scenario_book [])
                    (mkLogger "BUY 1x 9990" 3750) ["[]"])).
  reflexivity.
Defined.

(* ================================================================== *)
(** ** The orchestrator follows [market_trades] (C10) *)

Lemma get_set {V : Type} (d : Dict.t V) (k k' : string) (v : V) :
  Dict.get (Dict.set d k v) k'
  = if String.eqb k' k then Some v else Dict.get d k'.
Proof.
  induction d as [|[k0 v0] d IH]; cbn.
  - reflexivity.
  - destruct (String.eqb_spec k k0) as [->|Hk]; cbn.
    + destruct (String.eqb_spec k' k0); reflexivity.
    + rewrite IH.
      destruct (String.eqb_spec k' k0) as [->|Hk'].
      * destruct (String.eqb_spec k0 k); [congruence | reflexivity].
      * reflexivity.
Qed.

Lemma contains_set {V : Type} (d : Dict.t V) (k k' : string) (v : V) :
  Dict.contains (Dict.set d k v) k' = true
  <-> k' = k \/ Dict.contains d k' = true.
Proof.
  unfold Dict.contains. rewrite get_set.
  destruct (String.eqb_spec k' k); split; intros H; auto.
  destruct H; [contradiction | assumption].
Qed.

Lemma contains_keys {V : Type} (d : Dict.t V) (k : string) :
  Dict.contains d k = true <-> In k (Dict.keys d).
Proof.
  unfold Dict.contains, Dict.keys.
  induction d as [|[k0 v0] d IH]; cbn.
  - split; [discriminate | contradiction].
  - destruct (String.eqb_spec k k0) as [->|Hk].
    + split; auto.
    + rewrite IH. split; [auto | intros [H|H]; [congruence | assumption]].
Qed.

Lemma run_product_skip (registry : Dict.t mm_Product_Strategy)
  (product : Symbol) (result : Dict.t (list Order)) (w : World) :
  Dict.contains registry product = false ->
  run_product registry product result w = (Return result, w).
Proof. intros H. unfold run_product. rewrite H. reflexivity. Qed.

Lemma run_product_call (registry : Dict.t mm_Product_Strategy)
  (product : Symbol) (result : Dict.t (list Order)) (w : World)
  (strategy : mm_Product_Strategy) :
  Dict.get registry product = Some strategy ->
  exists t,
    run_product registry product result w
    = (match Dict.get (order_depths (w_state w)) (productSymbol strategy) with
       | Some od =>
           Return (Dict.set result product (engine strategy (w_state w) od))
       | None => Raise (KeyError (productSymbol strategy))
       end,
       logged w t).
Proof.
  intros H. unfold run_product, Dict.contains, getitem. rewrite H. cbn [negb].
  unfold bind at 1. unfold ret at 1. unfold bind.
  destruct (makeOrders_run strategy w) as [t Ht]. rewrite Ht.
  exists t.
  destruct (Dict.get (order_depths (w_state w)) (productSymbol strategy));
    reflexivity.
Qed.

(** The loop of [run], when it completes: the keys of the result are
    those it had, and the visited products that are registered. *)
Lemma run_loop_keys (registry : Dict.t mm_Product_Strategy) :
  forall products result w result' w',
    for_each products (run_product registry) result w = (Return result', w') ->
    forall p,
      Dict.contains result' p = true
      <-> Dict.contains result p = true
          \/ (In p products /\ Dict.contains registry p = true).
Proof.
  induction products as [|q rest IH]; intros result w result' w' H p.
  - cbn in H. inversion H; subst. cbn. tauto.
  - cbn [for_each] in H. unfold bind in H.
    destruct (Dict.get registry q) as [s|] eqn:Hq.
    + destruct (run_product_call registry q result w s Hq) as [t Ht].
      rewrite Ht in H.
      destruct (Dict.get (order_depths (w_state w)) (productSymbol s))
        as [od|]; [|discriminate].
      rewrite (IH _ _ _ _ H p), contains_set. cbn [In].
      assert (Hc : Dict.contains registry q = true).
      { apply contains_get_some. eauto. }
      split.
      * intros [[->|Hr]|[Hin Hreg]]; auto.
      * intros [Hr|[[->|Hin] Hreg]]; auto.
    + assert (Hc : Dict.contains registry q = false).
      { now apply contains_get_none. }
      rewrite (run_product_skip registry q result w Hc) in H.
      rewrite (IH _ _ _ _ H p). cbn [In].
      split.
      * intros [Hr|[Hin Hreg]]; auto.
      * intros [Hr|[[->|Hin] Hreg]]; auto. congruence.
Qed.

(** The loop completes when every visited, registered product has its
    book; it changes the logger's text only. *)
Lemma run_loop_returns (registry : Dict.t mm_Product_Strategy) :
  forall products result w,
    (forall p s, In p products -> Dict.get registry p = Some s ->
       Dict.contains (order_depths (w_state w)) (productSymbol s) = true) ->
    exists result' t,
      for_each products (run_product registry) result w
      = (Return result', logged w t).
Proof.
  induction products as [|q rest IH]; intros result w Hbooks.
  - exists result, (logs (w_logger w)). rewrite logged_same. reflexivity.
  - cbn [for_each]. unfold bind.
    destruct (Dict.get registry q) as [s|] eqn:Hq.
    + destruct (run_product_call registry q result w s Hq) as [t Ht].
      rewrite Ht.
      pose proof (Hbooks q s (or_introl eq_refl) Hq) as Hb.
      apply contains_get_some in Hb. destruct Hb as [od Hod]. rewrite Hod.
      destruct (IH (Dict.set result q (engine s (w_state w) od))
                   (logged w t)) as (result' & t' & H').
      { intros p s' Hin Hs'. cbn. apply (Hbooks p s'); [now right | assumption]. }
      rewrite H'. exists result', t'. reflexivity.
    + assert (Hc : Dict.contains registry q = false).
      { now apply contains_get_none. }
      rewrite (run_product_skip registry q result w Hc).
      apply IH. intros p s' Hin Hs'. apply (Hbooks p s'); [now right | assumption].
Qed.

(** C10.  [Trader.run] visits the keys of [market_trades] only.  When it
    returns, its result has an entry for an instrument exactly when the
    instrument is a key of [market_trades] and is registered: a
    registered instrument with an order book and no [market_trades]
    entry gets none, and neither does an unregistered key of
    [market_trades].  It does return, with 0 conversions and empty trader
    data, when every registered key of [market_trades] has its order
    book, whatever unregistered keys there are. *)
Theorem run_follows_market_trades (registry : Dict.t mm_Product_Strategy)
  (w : World) :
  ((forall p s,
      In p (Dict.keys (market_trades (w_state w))) ->
      Dict.get registry p = Some s ->
      Dict.contains (order_depths (w_state w)) (productSymbol s) = true) ->
   exists result w', run_with registry w = (Return (result, 0, ""), w')) /\
  (forall result conversions trader_data,
     fst (run_with registry w) = Return (result, conversions, trader_data) ->
     (forall p,
        Dict.contains result p = true
        <-> Dict.contains (market_trades (w_state w)) p = true
            /\ Dict.contains registry p = true) /\
     (forall p,
        Dict.contains registry p = true ->
        Dict.contains (order_depths (w_state w)) p = true ->
        Dict.contains (market_trades (w_state w)) p = false ->
        Dict.get result p = None) /\
     (forall p,
        Dict.contains (market_trades (w_state w)) p = true ->
        Dict.contains registry p = false ->
        Dict.get result p = None)).
Proof.
  split.
  - intros Hbooks. unfold run_with, bind, get_state.
    destruct (run_loop_returns registry
                (Dict.keys (market_trades (w_state w))) Dict.empty w Hbooks)
      as (result & t & H).
    rewrite H. eexists. eexists. reflexivity.
  - intros result conversions trader_data H.
    unfold run_with, bind, get_state in H.
    destruct (for_each (Dict.keys (market_trades (w_state w)))
                       (run_product registry) Dict.empty w)
      as [[r|e] w1] eqn:Hloop; [|discriminate].
    cbn in H. inversion H; subst. clear H.
    assert (Hkeys : forall p,
               Dict.contains result p = true
               <-> Dict.contains (market_trades (w_state w)) p = true
                   /\ Dict.contains registry p = true).
    { intros p. rewrite (run_loop_keys registry _ _ _ _ _ Hloop p).
      pose proof (contains_keys (market_trades (w_state w)) p) as Hk.
      cbn. split.
      - intros [H|[H1 H2]]; [discriminate | split; [now apply Hk | assumption]].
      - intros [H1 H2]. right. split; [now apply Hk | assumption]. }
    split; [assumption|]. split.
    + intros p _ _ Hm. apply contains_get_none.
      destruct (Dict.contains result p) eqn:E; [|reflexivity].
      apply Hkeys in E. destruct E. congruence.
    + intros p _ Hr. apply contains_get_none.
      destruct (Dict.contains result p) eqn:E; [|reflexivity].
      apply Hkeys in E. destruct E. congruence.
Qed.

Lemma run_follows_market_trades_witness :
  (exists result w',
     run_with strategies (fresh quiet_state) = (Return (result, 0, ""), w'))
  /\ Dict.get (@Dict.empty (list Order)) "RAINFOREST_RESIN" = None
  /\ Dict.get (@Dict.empty (list Order)) "KELP" = None.
Proof.
  split; [|split].
  - apply (proj1 (run_follows_market_trades strategies (fresh quiet_state))).
    intros p s [<-|[]] Hs. cbn in Hs. discriminate.
  - apply (proj1 (proj2 (proj2 (run_follows_market_trades
                                  strategies (fresh quiet_state))
                               Dict.empty 0 "" eq_refl))
                 "RAINFOREST_RESIN"); reflexivity.
  - apply (proj2 (proj2 (proj2 (run_follows_market_trades
                                  strategies (fresh quiet_state))
                               Dict.empty 0 "" eq_refl))
                 "KELP"); reflexivity.
Defined.

(* ================================================================== *)
(** ** The length of the log line (C9) *)

Lemma length_append (a b : string) :
  String.length (a +++ b) = (String.length a + String.length b)%nat.
Proof. induction a as [|c a IH]; cbn; [reflexivity | now rewrite IH]. Qed.

Lemma length_substring_0 (n : nat) :
  forall s, String.length (substring 0 n s) = Nat.min n (String.length s).
Proof.
  induction n as [|n IH]; intros [|c s]; cbn; try reflexivity.
  now rewrite IH.
Qed.

(** A string cut by [truncate] fits [max_length] once there is room for
    the three dots. *)
Lemma truncate_len (value : string) (max_length : Z) :
  3 <= max_length -> len (truncate value max_length) <= max_length.
Proof.
  intros H. unfold truncate.
  destruct (Z.leb_spec (len value) max_length) as [Hle|Hgt]; [assumption|].
  unfold slice_to, len in *.
  destruct (Z.leb_spec 0 (max_length - 3)); [|lia].
  rewrite length_append, length_substring_0. cbn [String.length]. lia.
Qed.

(** The line is the line with the three texts empty, plus the escaped
    texts. *)
Lemma dumps_line_len (state : TradingState) (orders : Dict.t (list Order))
  (conversions : Z) (t1 t2 t3 : string) :
  len (to_json (JList [compress_state state t1; compress_orders orders;
                       JInt conversions; JStr t2; JStr t3]))
  = len (to_json (JList [compress_state state ""; compress_orders orders;
                         JInt conversions; JStr ""; JStr ""]))
    + len (escape t1) + len (escape t2) + len (escape t3).
Proof.
  unfold to_json, compress_state, len.
  cbn [dumps map]. unfold join, encode_basestring. cbn [String.concat escape].
  repeat (rewrite !length_append || cbn [String.length String.append]).
  lia.
Qed.

Lemma escape_char_plain (c : ascii) :
  let n := nat_of_ascii c in
  Nat.leb 32 n && Nat.leb n 126 && negb (Nat.eqb n 34)
  && negb (Nat.eqb n 92) = true ->
  escape_char c = String c EmptyString.
Proof.
  cbv zeta. unfold escape_char. intros H.
  apply andb_prop in H. destruct H as [H H92].
  apply andb_prop in H. destruct H as [H H34].
  apply andb_prop in H. destruct H as [H32 H126].
  apply negb_true_iff in H34, H92. rewrite H34, H92, H32, H126.
  apply Nat.leb_le in H32.
  destruct (Nat.eqb_spec (nat_of_ascii c) 8); [lia|].
  destruct (Nat.eqb_spec (nat_of_ascii c) 12); [lia|].
  destruct (Nat.eqb_spec (nat_of_ascii c) 10); [lia|].
  destruct (Nat.eqb_spec (nat_of_ascii c) 13); [lia|].
  destruct (Nat.eqb_spec (nat_of_ascii c) 9); [lia|].
  reflexivity.
Qed.

Lemma escape_plain : forall s, plain s = true -> escape s = s.
Proof.
  induction s as [|c s IH]; cbn [plain escape]; intros H; [reflexivity|].
  apply andb_prop in H. destruct H as [Hc Hs].
  rewrite (escape_char_plain c Hc), (IH Hs). reflexivity.
Qed.

Lemma plain_append (a b : string) :
  plain a = true -> plain b = true -> plain (a +++ b) = true.
Proof.
  induction a as [|c a IH]; cbn [plain String.append]; intros Ha Hb;
    [assumption|].
  apply andb_prop in Ha. destruct Ha as [Hc Ha].
  rewrite Hc, (IH Ha Hb). reflexivity.
Qed.

Lemma plain_substring_0 (n : nat) :
  forall s, plain s = true -> plain (substring 0 n s) = true.
Proof.
  induction n as [|n IH]; intros [|c s] H; cbn [substring plain] in *;
    try reflexivity.
  apply andb_prop in H. destruct H as [Hc Hs].
  rewrite Hc, (IH s Hs). reflexivity.
Qed.

Lemma plain_truncate (value : string) (max_length : Z) :
  plain value = true -> plain (truncate value max_length) = true.
Proof.
  intros H. unfold truncate, slice_to.
  destruct (len value <=? max_length); [assumption|].
  apply plain_append; [|reflexivity].
  destruct (0 <=? max_length - 3); now apply plain_substring_0.
Qed.

(** X17.  What [flush] does achieve: when the three texts hold only
    characters that JSON prints as they are and the line with the texts
    empty leaves at least 9 characters of the budget, the printed line
    fits the budget. *)
Lemma flush_line_within_budget (self : Logger) (state : TradingState)
  (orders : Dict.t (list Order)) (conversions : Z) (trader_data : string) :
  len (to_json (JList [compress_state state ""; compress_orders orders;
                       JInt conversions; JStr ""; JStr ""])) + 9
  <= max_log_length self ->
  plain (traderData state) = true ->
  plain trader_data = true ->
  plain (logs self) = true ->
  len (flush_line self state orders conversions trader_data)
  <= max_log_length self.
Proof.
  intros Hbase H1 H2 H3. unfold flush_line.
  set (base := len (to_json (JList [compress_state state "";
                                    compress_orders orders;
                                    JInt conversions; JStr ""; JStr ""])))
    in *.
  set (m := (max_log_length self - base) / 3).
  assert (Hm : 3 <= m /\ 3 * m <= max_log_length self - base).
  { subst m. split.
    - apply Z.div_le_lower_bound; lia.
    - apply Z.mul_div_le. lia. }
  rewrite dumps_line_len. fold base.
  rewrite !escape_plain by now apply plain_truncate.
  pose proof (truncate_len (traderData state) m (proj1 Hm)).
  pose proof (truncate_len trader_data m (proj1 Hm)).
  pose proof (truncate_len (logs self) m (proj1 Hm)).
  lia.
Qed.

(** C9, the code at the failing input.  [Trader.run] on a fresh world
    with [accented_state] returns and prints exactly one line, of 4242
    characters, above the budget of 3750: the trader data is shorter
    than the item length 1236, so it is not cut, and each of its
    characters prints as six. *)
Theorem flush_over_budget :
  exists line,
    run (fresh accented_state)
    = (Return (Dict.empty, 0, ""),
       mkWorld accented_state Logger_init [line]) /\
    line = flush_line Logger_init accented_state Dict.empty 0 "" /\
    len line = 4242 /\
    max_log_length Logger_init < len line.
Proof.
  exists (flush_line Logger_init accented_state Dict.empty 0 "").
  split; [reflexivity|]. split; [reflexivity|].
  split; vm_compute; reflexivity.
Qed.

(** A second way over the budget, with every text empty or short: on
    [busy_state] the line with the texts empty already has more than
    3750 characters, the item length is negative, and the printed line
    has 4311 characters. *)
Lemma flush_large_snapshot :
  exists result line,
    run (fresh busy_state)
    = (Return (result, 0, ""), mkWorld busy_state Logger_init [line]) /\
    3750 < len (to_json (JList [compress_state busy_state "";
                                compress_orders result;
                                JInt 0; JStr ""; JStr ""])) /\
    len line = 4311.
Proof.
  eexists. eexists. split; [vm_compute; reflexivity|].
  split; vm_compute; reflexivity.
Qed.

(* ================================================================== *)
(** ** What the engine logs *)

Lemma append_nil_r (s : string) : s +++ "" = s.
Proof. induction s as [|c s IH]; cbn; [reflexivity | now rewrite IH]. Qed.

Lemma append_assoc (a b c : string) : (a +++ b) +++ c = a +++ (b +++ c).
Proof. induction a as [|x a IH]; cbn; [reflexivity | now rewrite IH]. Qed.

Lemma logged_twice (w : World) (t1 t2 : string) :
  logged (logged w t1) t2 = logged w t2.
Proof. reflexivity. Qed.

Lemma take_sell_log (self : mm_Product_Strategy) (bp p v : Z)
  (orders : list Order) (pos : Z) (w : World) :
  take_sell self bp (p, v) (orders, pos) w
  = (Return (if (p <=? bp) && (pos - v <=? limit self)
             then (orders ++ [mkOrder (productSymbol self) p (- v)], pos - v)
             else (orders, pos)),
     logged w (logs (w_logger w)
                 +++ (if (p <=? bp) && (pos - v <=? limit self)
                      then log_line [PStr "BUY"; PStr (str_int (- v) +++ "x");
                                     PInt p]
                      else ""))).
Proof.
  unfold take_sell.
  destruct ((p <=? bp) && (pos - v <=? limit self)).
  - reflexivity.
  - rewrite append_nil_r, logged_same. reflexivity.
Qed.

Lemma take_buy_log (self : mm_Product_Strategy) (sp p v : Z)
  (orders : list Order) (pos : Z) (w : World) :
  take_buy self sp (p, v) (orders, pos) w
  = (Return (if (p >=? sp) && (pos - v >=? - limit self)
             then (orders ++ [mkOrder (productSymbol self) p (- v)], pos - v)
             else (orders, pos)),
     logged w (logs (w_logger w)
                 +++ (if (p >=? sp) && (pos - v >=? - limit self)
                      then log_line [PStr "SELL"; PStr (str_int v +++ "x");
                                     PInt p]
                      else ""))).
Proof.
  unfold take_buy.
  destruct ((p >=? sp) && (pos - v >=? - limit self)).
  - reflexivity.
  - rewrite append_nil_r, logged_same. reflexivity.
Qed.

Lemma for_each_take_sell_log (self : mm_Product_Strategy) (bp : Z) :
  forall levels orders pos w,
    for_each levels (take_sell self bp) (orders, pos) w
    = (Return (orders ++ fst (sell_fills self bp levels pos),
               snd (sell_fills self bp levels pos)),
       logged w (logs (w_logger w) +++ sell_fills_log self bp levels pos)).
Proof.
  induction levels as [|[p v] rest IH]; intros orders pos w.
  - cbn. rewrite app_nil_r, append_nil_r, logged_same. reflexivity.
  - cbn [for_each sell_fills sell_fills_log]. unfold bind.
    rewrite take_sell_log.
    destruct ((p <=? bp) && (pos - v <=? limit self)).
    + rewrite IH, logged_twice. cbn [logged w_logger logs].
      rewrite append_assoc.
      destruct (sell_fills self bp rest (pos - v)) as [os pos'].
      cbn [fst snd]. rewrite <- app_assoc. reflexivity.
    + rewrite IH, logged_twice. cbn [logged w_logger logs].
      rewrite append_assoc. reflexivity.
Qed.

Lemma for_each_take_buy_log (self : mm_Product_Strategy) (sp : Z) :
  forall levels orders pos w,
    for_each levels (take_buy self sp) (orders, pos) w
    = (Return (orders ++ fst (buy_fills self sp levels pos),
               snd (buy_fills self sp levels pos)),
       logged w (logs (w_logger w) +++ buy_fills_log self sp levels pos)).
Proof.
  induction levels as [|[p v] rest IH]; intros orders pos w.
  - cbn. rewrite app_nil_r, append_nil_r, logged_same. reflexivity.
  - cbn [for_each buy_fills buy_fills_log]. unfold bind.
    rewrite take_buy_log.
    destruct ((p >=? sp) && (pos - v >=? - limit self)).
    + rewrite IH, logged_twice. cbn [logged w_logger logs].
      rewrite append_assoc.
      destruct (buy_fills self sp rest (pos - v)) as [os pos'].
      cbn [fst snd]. rewrite <- app_assoc. reflexivity.
    + rewrite IH, logged_twice. cbn [logged w_logger logs].
      rewrite append_assoc. reflexivity.
Qed.

Lemma post_orders_log (self : mm_Product_Strategy) (bp sp : Z)
  (orders : list Order) (pos : Z) (w : World) :
  post_orders self bp sp (orders, pos) w
  = (Return (orders ++ quotes self bp sp pos),
     logged w (logs (w_logger w) +++ quotes_log self bp sp pos)).
Proof.
  unfold post_orders, quotes, quotes_log.
  destruct (pos <=? - custom_limit self); [reflexivity|].
  destruct (pos >=? custom_limit self); [reflexivity|].
  cbn. rewrite <- app_assoc, append_assoc. reflexivity.
Qed.

(** The engine with its log: the value is [engine], the world differs in
    the logger's text only, which gains [engine_log] at its end. *)
Lemma makeOrders_log (self : mm_Product_Strategy) (w : World)
  (od : OrderDepth) :
  Dict.get (order_depths (w_state w)) (productSymbol self) = Some od ->
  makeOrders self w
  = (Return (engine self (w_state w) od),
     logged w (logs (w_logger w) +++ engine_log self (w_state w) od)).
Proof.
  intros Hod. unfold makeOrders, bind, get_state, getitem. rewrite Hod.
  unfold ret at 1. unfold engine, engine_log, phase1, phase2.
  destruct (adjust_prices self (fairValue self (w_state w))
              (starting_position self (w_state w))) as [bp sp].
  rewrite for_each_take_sell_log. cbn [app].
  destruct (sell_fills self bp (sell_orders od)
              (starting_position self (w_state w))) as [os1 p1].
  cbn [fst snd].
  rewrite for_each_take_buy_log.
  destruct (buy_fills self sp (buy_orders od) p1) as [os2 p2].
  cbn [fst snd].
  destruct (adjust_prices self (fairValue self (w_state w)) p2) as [bp2 sp2].
  rewrite post_orders_log, !logged_twice. cbn [logged w_logger logs w_state].
  rewrite !append_assoc. reflexivity.
Qed.

Lemma count_lines_append (a b : string) :
  count_lines (a +++ b) = (count_lines a + count_lines b)%nat.
Proof.
  induction a as [|c a IH]; cbn; [reflexivity | rewrite IH; lia].
Qed.

Lemma count_lines_uint (d : Decimal.uint) :
  count_lines (NilEmpty.string_of_uint d) = 0%nat.
Proof. induction d; cbn; assumption || reflexivity. Qed.

Lemma count_lines_str_int (n : Z) : count_lines (str_int n) = 0%nat.
Proof.
  unfold str_int, NilZero.string_of_int, NilZero.string_of_uint.
  destruct (Z.to_int n) as [d|d]; destruct d; cbn;
    try reflexivity; apply count_lines_uint.
Qed.

Lemma count_lines_log_line (tag : string) (x p : Z) :
  count_lines tag = 0%nat ->
  count_lines (log_line [PStr tag; PStr (str_int x +++ "x"); PInt p]) = 1%nat.
Proof.
  intros Ht. unfold log_line, join. cbn [map str String.concat].
  rewrite !count_lines_append, Ht, !count_lines_str_int. reflexivity.
Qed.

Lemma sell_fills_log_lines (self : mm_Product_Strategy) (bp : Z) :
  forall levels pos,
    count_lines (sell_fills_log self bp levels pos)
    = List.length (fst (sell_fills self bp levels pos)).
Proof.
  induction levels as [|[p v] rest IH]; intros pos;
    cbn [sell_fills sell_fills_log]; [reflexivity|].
  destruct ((p <=? bp) && (pos - v <=? limit self)); [|apply IH].
  rewrite count_lines_append, count_lines_log_line by reflexivity.
  rewrite IH. destruct (sell_fills self bp rest (pos - v)). reflexivity.
Qed.

Lemma buy_fills_log_lines (self : mm_Product_Strategy) (sp : Z) :
  forall levels pos,
    count_lines (buy_fills_log self sp levels pos)
    = List.length (fst (buy_fills self sp levels pos)).
Proof.
  induction levels as [|[p v] rest IH]; intros pos;
    cbn [buy_fills buy_fills_log]; [reflexivity|].
  destruct ((p >=? sp) && (pos - v >=? - limit self)); [|apply IH].
  rewrite count_lines_append, count_lines_log_line by reflexivity.
  rewrite IH. destruct (buy_fills self sp rest (pos - v)). reflexivity.
Qed.

Lemma quotes_log_lines (self : mm_Product_Strategy) (bp sp pos : Z) :
  count_lines (quotes_log self bp sp pos)
  = List.length (quotes self bp sp pos).
Proof.
  unfold quotes_log, quotes.
  destruct (pos <=? - custom_limit self);
    [now apply count_lines_log_line|].
  destruct (pos >=? custom_limit self);
    [now apply count_lines_log_line|].
  rewrite count_lines_append, !count_lines_log_line by reflexivity.
  reflexivity.
Qed.

(** X1.  With the book of the instrument present, [makeOrders] returns
    its orders and leaves a world that differs from the one before in the
    logger's text only; that text is the text before followed by exactly
    one line per returned order. *)
Theorem one_log_line_per_order (self : mm_Product_Strategy) (w : World)
  (od : OrderDepth) :
  Dict.get (order_depths (w_state w)) (productSymbol self) = Some od ->
  exists orders text,
    makeOrders self w
    = (Return orders, logged w (logs (w_logger w) +++ text)) /\
    count_lines text = List.length orders.
Proof.
  intros Hod.
  exists (engine self (w_state w) od), (engine_log self (w_state w) od).
  split; [now apply makeOrders_log|].
  unfold engine, engine_log, phase1, phase2.
  destruct (adjust_prices self (fairValue self (w_state w))
              (starting_position self (w_state w))) as [bp sp].
  pose proof (sell_fills_log_lines self bp (sell_orders od)
                (starting_position self (w_state w))) as H1.
  destruct (sell_fills self bp (sell_orders od)
              (starting_position self (w_state w))) as [os1 p1].
  pose proof (buy_fills_log_lines self sp (buy_orders od) p1) as H2.
  destruct (buy_fills self sp (buy_orders od) p1) as [os2 p2].
  cbn [fst snd] in *.
  destruct (adjust_prices self (fairValue self (w_state w)) p2) as [bp2 sp2].
  rewrite !count_lines_append, !length_app, H1, H2, quotes_log_lines. lia.
Qed.

Lemma one_log_line_per_order_witness :
  exists orders text,
    makeOrders Rainforest_Resin_Strategy
               (mkWorld (snapshot scenario_book [])
                        (mkLogger "earlier text" 3750) [])
    = (Return orders,
       logged (mkWorld (snapshot scenario_book [])
                       (mkLogger "earlier text" 3750) [])
              ("earlier text" +++ text)) /\
    count_lines text = List.length orders.
Proof.
  apply (one_log_line_per_order
           Rainforest_Resin_Strategy
           (mkWorld (snapshot scenario_book [])
                    (mkLogger "earlier text" 3750) [])
           scenario_book).
  reflexivity.
Defined.

Lemma phase1_unfold (self : mm_Product_Strategy) (fair pos0 : Z)
  (od : OrderDepth) (taken : list Order) (pos : Z) :
  phase1 self fair pos0 od = (taken, pos) ->
  exists os1 p1 os2,
    sell_fills self (fst (adjust_prices self fair pos0)) (sell_orders od) pos0
    = (os1, p1) /\
    buy_fills self (snd (adjust_prices self fair pos0)) (buy_orders od) p1
    = (os2, pos) /\
    taken = os1 ++ os2.
Proof.
  unfold phase1.
  destruct (adjust_prices self fair pos0) as [bp sp]. cbn [fst snd].
  destruct (sell_fills self bp (sell_orders od) pos0) as [os1 p1].
  destruct (buy_fills self sp (buy_orders od) p1) as [os2 p2] eqn:E2.
  intros H. inversion H; subst. exists os1, p1, os2. auto.
Qed.

(** X2.  When the running position [pos] phase 1 leaves is at least
    [custom_limit] and above [-custom_limit], [makeOrders] returns the
    orders of phase 1 followed by exactly one order, of quantity [-pos],
    at [fair - liquidate_val], which brings the position to 0 and is a
    sell for a positive custom limit; the line it logs for this order
    shows the buy price [fair - spread], not the price of the order. *)
Theorem long_liquidation (self : mm_Product_Strategy) (w : World)
  (od : OrderDepth) (taken : list Order) (pos : Z) :
  Dict.get (order_depths (w_state w)) (productSymbol self) = Some od ->
  phase1_leaves self (fairValue self (w_state w))
                (starting_position self (w_state w)) od taken pos ->
  - custom_limit self < pos ->
  custom_limit self <= pos ->
  let fair := fairValue self (w_state w) in
  let o := mkOrder (productSymbol self) (fair - liquidate_val self) (- pos) in
  fst (makeOrders self w) = Return (taken ++ [o]) /\
  apply_order pos o = 0 /\
  (0 < custom_limit self -> quantity o < 0) /\
  exists text,
    logs (w_logger (snd (makeOrders self w)))
    = logs (w_logger w)
        +++ text
        +++ log_line [PStr "SELL"; PStr (str_int (Z.abs pos) +++ "x");
                      PInt (fair - spread self)].
Proof.
  intros Hod Hp Hlo Hhi fair o. subst o.
  pose proof (phase1_leaves_fun _ _ _ _ _ _ Hp) as Hph. fold fair in Hph.
  rewrite (makeOrders_log self w od Hod). cbn [fst snd logged w_logger logs].
  unfold engine, engine_log. fold fair. rewrite Hph.
  destruct (phase1_unfold _ _ _ _ _ _ Hph) as (os1 & p1 & os2 & E1 & E2 & ->).
  destruct (adjust_prices self fair (starting_position self (w_state w)))
    as [bp sp] eqn:Ea.
  cbn [fst snd] in E1, E2. rewrite E1, E2.
  unfold phase2, adjust_prices, quotes, quotes_log, apply_order.
  cbn [quantity].
  rewrite Z.geb_leb.
  destruct (Z.leb_spec pos (- custom_limit self)); [lia|].
  destruct (Z.leb_spec (custom_limit self) pos); [|lia].
  split; [reflexivity|]. split; [lia|]. split; [lia|].
  exists (sell_fills_log self bp (sell_orders od)
            (starting_position self (w_state w))
          +++ buy_fills_log self sp (buy_orders od) p1).
  rewrite !append_assoc. reflexivity.
Qed.

Lemma long_liquidation_witness :
  let self := Rainforest_Resin_Strategy in
  let w := fresh (snapshot empty_book [("RAINFOREST_RESIN", 20)]) in
  let o := mkOrder "RAINFOREST_RESIN" (10000 - 0) (- 20) in
  fst (makeOrders self w) = Return ([] ++ [o]) /\
  apply_order 20 o = 0 /\
  (0 < custom_limit self -> quantity o < 0) /\
  exists text,
    logs (w_logger (snd (makeOrders self w)))
    = logs (w_logger w)
        +++ text
        +++ log_line [PStr "SELL"; PStr (str_int (Z.abs 20) +++ "x");
                      PInt (10000 - 2)].
Proof.
  apply (long_liquidation
           Rainforest_Resin_Strategy
           (fresh (snapshot empty_book [("RAINFOREST_RESIN", 20)]))
           empty_book [] 20).
  - reflexivity.
  - exists 9998, 10000, [], 20, [].
    split; [split; cbn; lia|]. split; [split; cbn; lia|].
    split; [constructor|]. split; [constructor|]. reflexivity.
  - cbn. lia.
  - cbn. lia.
Defined.

(* ================================================================== *)
(** ** The shape of the returned orders *)

(** Every order of a walk over the sell side is the fill of one of its
    levels, at a price within the threshold. *)
Lemma takes_sells_orders (self : mm_Product_Strategy) (bp : Z) :
  forall pos levels orders pos',
    takes_sells self bp pos levels orders pos' ->
    Forall (fun o => symbol o = productSymbol self /\ price o <= bp /\
                     In (price o, - quantity o) levels) orders /\
    (List.length orders <= List.length levels)%nat.
Proof.
  induction 1 as [pos | pos p v levels orders pos' Hp Hv _ [IH IHl]
                 | pos p v levels orders pos' Hn _ [IH IHl]].
  - split; [constructor | cbn; lia].
  - split; [|cbn; lia]. constructor.
    + cbn. rewrite Z.opp_involutive. auto.
    + eapply Forall_impl; [|exact IH]. cbn. intros o (H1 & H2 & H3). auto.
  - split; [|cbn; lia].
    eapply Forall_impl; [|exact IH]. cbn. intros o (H1 & H2 & H3). auto.
Qed.

Lemma takes_buys_orders (self : mm_Product_Strategy) (sp : Z) :
  forall pos levels orders pos',
    takes_buys self sp pos levels orders pos' ->
    Forall (fun o => symbol o = productSymbol self /\ sp <= price o /\
                     In (price o, - quantity o) levels) orders /\
    (List.length orders <= List.length levels)%nat.
Proof.
  induction 1 as [pos | pos p v levels orders pos' Hp Hv _ [IH IHl]
                 | pos p v levels orders pos' Hn _ [IH IHl]].
  - split; [constructor | cbn; lia].
  - split; [|cbn; lia]. constructor.
    + cbn. rewrite Z.opp_involutive. split; [reflexivity|]. split; [lia|auto].
    + eapply Forall_impl; [|exact IH]. cbn. intros o (H1 & H2 & H3). auto.
  - split; [|cbn; lia].
    eapply Forall_impl; [|exact IH]. cbn. intros o (H1 & H2 & H3). auto.
Qed.

Lemma quotes_shape (self : mm_Product_Strategy) (bp sp pos : Z) :
  Forall (fun o => symbol o = productSymbol self) (quotes self bp sp pos) /\
  (1 <= List.length (quotes self bp sp pos) <= 2)%nat.
Proof.
  unfold quotes.
  destruct (pos <=? - custom_limit self);
    [split; [repeat constructor | cbn; lia]|].
  destruct (pos >=? custom_limit self);
    split; (repeat constructor) || (cbn; lia).
Qed.

(** X3.  With the book of the instrument present, [makeOrders] returns a
    list in which every order carries the strategy's own symbol, with at
    least one order and at most two more than the book has price
    levels. *)
Theorem orders_shape (self : mm_Product_Strategy) (w : World)
  (od : OrderDepth) :
  Dict.get (order_depths (w_state w)) (productSymbol self) = Some od ->
  exists orders,
    fst (makeOrders self w) = Return orders /\
    Forall (fun o => symbol o = productSymbol self) orders /\
    (1 <= List.length orders <= levels_of od + 2)%nat.
Proof.
  intros Hod. exists (engine self (w_state w) od).
  split; [now apply makeOrders_value|].
  unfold engine, phase2, levels_of.
  destruct (phase1_spec self (fairValue self (w_state w))
              (starting_position self (w_state w)) od)
    as (bp & sp & os1 & p1 & os2 & p2 & _ & _ & _ & Ts & Tb & E & _).
  rewrite E.
  destruct (takes_sells_orders _ _ _ _ _ _ Ts) as [F1 L1].
  destruct (takes_buys_orders _ _ _ _ _ _ Tb) as [F2 L2].
  destruct (adjust_prices self (fairValue self (w_state w)) p2) as [bp2 sp2].
  destruct (quotes_shape self bp2 sp2 p2) as [F3 L3].
  split.
  - repeat (apply Forall_app; split); try assumption.
    + eapply Forall_impl; [|exact F1]. cbn. tauto.
    + eapply Forall_impl; [|exact F2]. cbn. tauto.
  - rewrite !length_app. lia.
Qed.

Lemma orders_shape_witness :
  exists orders,
    fst (makeOrders Rainforest_Resin_Strategy
                    (fresh (snapshot scenario_book []))) = Return orders /\
    Forall (fun o => symbol o = "RAINFOREST_RESIN") orders /\
    (1 <= List.length orders <= levels_of scenario_book + 2)%nat.
Proof.
  apply (orders_shape Rainforest_Resin_Strategy
                      (fresh (snapshot scenario_book [])) scenario_book).
  reflexivity.
Defined.

(** X4.  After all the orders of a step are filled, the position is 0
    when phase 1 left it at or beyond a custom limit, and the position
    phase 1 left otherwise: the two quotes of the normal band cancel. *)
Theorem final_position (self : mm_Product_Strategy) (w : World)
  (od : OrderDepth) (taken : list Order) (pos : Z) :
  Dict.get (order_depths (w_state w)) (productSymbol self) = Some od ->
  phase1_leaves self (fairValue self (w_state w))
                (starting_position self (w_state w)) od taken pos ->
  exists orders,
    fst (makeOrders self w) = Return orders /\
    (- custom_limit self < pos < custom_limit self ->
     apply_orders (starting_position self (w_state w)) orders = pos) /\
    (pos <= - custom_limit self \/ custom_limit self <= pos ->
     apply_orders (starting_position self (w_state w)) orders = 0).
Proof.
  intros Hod Hp.
  exists (taken ++ phase2 self (fairValue self (w_state w)) pos).
  split; [now apply (makeOrders_phases self w od)|].
  pose proof (phase1_leaves_fun _ _ _ _ _ _ Hp) as Hph.
  destruct (phase1_spec self (fairValue self (w_state w))
              (starting_position self (w_state w)) od)
    as (_ & _ & os1 & _ & os2 & p2 & _ & _ & _ & _ & _ & E & Ep).
  rewrite Hph in E. injection E as E1 E2. rewrite <- E1, <- E2 in Ep.
  rewrite apply_orders_app, Ep.
  unfold phase2, adjust_prices, quotes. rewrite Z.geb_leb.
  split.
  - intros Hband.
    destruct (Z.leb_spec pos (- custom_limit self)); [lia|].
    destruct (Z.leb_spec (custom_limit self) pos); [lia|].
    cbn. unfold apply_order. cbn. lia.
  - intros Hout.
    destruct (Z.leb_spec pos (- custom_limit self));
      [cbn; unfold apply_order; cbn; lia|].
    destruct (Z.leb_spec (custom_limit self) pos); [|lia].
    cbn. unfold apply_order. cbn. lia.
Qed.

Lemma final_position_witness :
  let self := Rainforest_Resin_Strategy in
  let w := fresh (snapshot scenario_book []) in
  exists orders,
    fst (makeOrders self w) = Return orders /\
    (- custom_limit self < 1 < custom_limit self ->
     apply_orders (starting_position self (w_state w)) orders = 1) /\
    (1 <= - custom_limit self \/ custom_limit self <= 1 ->
     apply_orders (starting_position self (w_state w)) orders = 0).
Proof.
  apply (final_position
           Rainforest_Resin_Strategy (fresh (snapshot scenario_book []))
           scenario_book
           [mkOrder "RAINFOREST_RESIN" 9998 5;
            mkOrder "RAINFOREST_RESIN" 10002 (-4)] 1).
  - reflexivity.
  - exists 9998, 10002, [mkOrder "RAINFOREST_RESIN" 9998 5], 5,
      [mkOrder "RAINFOREST_RESIN" 10002 (-4)].
    split; [split; cbn; lia|]. split; [split; cbn; lia|].
    split.
    { apply (takes_sells_fill Rainforest_Resin_Strategy 9998 0 9998 (-5)
                              [] [] 5); [lia | cbn; lia | constructor]. }
    split.
    { apply (takes_buys_fill Rainforest_Resin_Strategy 10002 5 10002 4
                             [] [] 1); [lia | cbn; lia | constructor]. }
    reflexivity.
Defined.

(** X5.  For a strategy with a non-negative spread, a non-positive
    liquidation offset and a positive custom limit, on a book with
    negative sell-side and positive buy-side volumes, no returned order
    trades through the fair value: every buy (positive quantity) is
    priced at or below it and every sell (negative quantity) at or above
    it. *)
Theorem never_through_fair_value (self : mm_Product_Strategy) (w : World)
  (od : OrderDepth) :
  Dict.get (order_depths (w_state w)) (productSymbol self) = Some od ->
  0 <= spread self ->
  liquidate_val self <= 0 ->
  0 < custom_limit self ->
  Forall (fun pv => snd pv < 0) (sell_orders od) ->
  Forall (fun pv => 0 < snd pv) (buy_orders od) ->
  exists orders,
    fst (makeOrders self w) = Return orders /\
    Forall (fun o =>
              (0 < quantity o -> price o <= fairValue self (w_state w)) /\
              (quantity o < 0 -> fairValue self (w_state w) <= price o))
           orders.
Proof.
  intros Hod Hsp Hlv Hc Hs Hb. exists (engine self (w_state w) od).
  split; [now apply makeOrders_value|].
  unfold engine, phase2.
  set (fair := fairValue self (w_state w)).
  destruct (phase1_spec self fair (starting_position self (w_state w)) od)
    as (bp & sp & os1 & p1 & os2 & p2 & Ea & _ & _ & Ts & Tb & E & _).
  rewrite E.
  destruct (takes_sells_orders _ _ _ _ _ _ Ts) as [F1 _].
  destruct (takes_buys_orders _ _ _ _ _ _ Tb) as [F2 _].
  assert (Hbp : bp <= fair /\ fair <= sp).
  { unfold adjust_prices in Ea. inversion Ea; subst.
    destruct (_ <=? _); destruct (_ >=? _); lia. }
  rewrite Forall_forall in Hs, Hb.
  repeat (apply Forall_app; split).
  - eapply Forall_impl; [|exact F1]. cbn. intros o (_ & Hp & Hin).
    apply Hs in Hin. cbn in Hin. split; lia.
  - eapply Forall_impl; [|exact F2]. cbn. intros o (_ & Hp & Hin).
    apply Hb in Hin. cbn in Hin. split; lia.
  - unfold adjust_prices, quotes. rewrite Z.geb_leb.
    destruct (Z.leb_spec p2 (- custom_limit self)).
    + repeat constructor; cbn; lia.
    + destruct (Z.leb_spec (custom_limit self) p2);
        repeat constructor; cbn; lia.
Qed.

Lemma never_through_fair_value_witness :
  exists orders,
    fst (makeOrders Rainforest_Resin_Strategy
                    (fresh (snapshot scenario_book []))) = Return orders /\
    Forall (fun o =>
              (0 < quantity o -> price o <= 10000) /\
              (quantity o < 0 -> 10000 <= price o))
           orders.
Proof.
  apply (never_through_fair_value
           Rainforest_Resin_Strategy (fresh (snapshot scenario_book []))
           scenario_book).
  - reflexivity.
  - cbn. lia.
  - cbn. lia.
  - cbn. lia.
  - repeat constructor.
  - repeat constructor.
Defined.

(** X6.  [makeOrders] reads the snapshot only through the order book and
    the position entry of its own instrument and through the fair value:
    on two worlds that agree on these it has the same outcome, orders or
    [KeyError], whatever else the snapshots, the loggers and the printed
    lines hold. *)
Theorem reads_own_instrument_only (self : mm_Product_Strategy)
  (w1 w2 : World) :
  Dict.get (order_depths (w_state w1)) (productSymbol self)
  = Dict.get (order_depths (w_state w2)) (productSymbol self) ->
  Dict.get (position (w_state w1)) (productSymbol self)
  = Dict.get (position (w_state w2)) (productSymbol self) ->
  fairValue self (w_state w1) = fairValue self (w_state w2) ->
  fst (makeOrders self w1) = fst (makeOrders self w2).
Proof.
  intros Hod Hpos Hfair.
  destruct (makeOrders_run self w1) as [t1 H1].
  destruct (makeOrders_run self w2) as [t2 H2].
  rewrite H1, H2. cbn [fst]. rewrite Hod.
  destruct (Dict.get (order_depths (w_state w2)) (productSymbol self));
    [|reflexivity].
  unfold engine, starting_position, Dict.contains.
  rewrite Hpos, Hfair. reflexivity.
Qed.

Lemma reads_own_instrument_only_witness :
  fst (makeOrders Rainforest_Resin_Strategy
                  (fresh (snapshot scenario_book [("KELP", 7)])))
  = fst (makeOrders Rainforest_Resin_Strategy
                    (mkWorld busy_state (mkLogger "BUY 1x 9990" 3750)
                             ["[]"])).
Proof.
  apply (reads_own_instrument_only
           Rainforest_Resin_Strategy
           (fresh (snapshot scenario_book [("KELP", 7)]))
           (mkWorld busy_state (mkLogger "BUY 1x 9990" 3750) ["[]"]));
    reflexivity.
Defined.

(** X7.  On a book without any level [makeOrders] returns the orders of
    phase 2 for the starting position alone: one buy of the whole short
    position at [fair + liquidate_val], one sell of the whole long
    position at [fair - liquidate_val], or the two quotes of size
    [custom_limit] at [fair - spread] and [fair + spread]. *)
Theorem empty_book_orders (self : mm_Product_Strategy) (w : World) :
  Dict.get (order_depths (w_state w)) (productSymbol self)
  = Some (mkOrderDepth [] []) ->
  let fair := fairValue self (w_state w) in
  let pos0 := starting_position self (w_state w) in
  (pos0 <= - custom_limit self ->
   fst (makeOrders self w)
   = Return [mkOrder (productSymbol self) (fair + liquidate_val self)
                     (- pos0)]) /\
  (- custom_limit self < pos0 -> custom_limit self <= pos0 ->
   fst (makeOrders self w)
   = Return [mkOrder (productSymbol self) (fair - liquidate_val self)
                     (- pos0)]) /\
  (- custom_limit self < pos0 < custom_limit self ->
   fst (makeOrders self w)
   = Return [mkOrder (productSymbol self) (fair - spread self)
                     (custom_limit self);
             mkOrder (productSymbol self) (fair + spread self)
                     (- custom_limit self)]).
Proof.
  intros Hod fair pos0.
  rewrite (makeOrders_value self w _ Hod).
  unfold engine, phase1, phase2. fold fair pos0.
  cbn [sell_orders buy_orders sell_fills buy_fills].
  unfold adjust_prices, quotes. rewrite Z.geb_leb. cbn [app].
  destruct (Z.leb_spec pos0 (- custom_limit self));
    destruct (Z.leb_spec (custom_limit self) pos0);
    repeat split; intros; try lia; reflexivity.
Qed.

Lemma empty_book_orders_witness :
  let self := Rainforest_Resin_Strategy in
  let w := fresh (snapshot empty_book [("RAINFOREST_RESIN", 3)]) in
  fst (makeOrders self w)
  = Return [mkOrder "RAINFOREST_RESIN" (10000 - 2) 15;
            mkOrder "RAINFOREST_RESIN" (10000 + 2) (- 15)].
Proof.
  intros self w.
  apply (proj2 (proj2 (empty_book_orders self w eq_refl))).
  cbn. lia.
Defined.

(** X8.  For the resin strategy (limit 50, custom limit 15), on a
    snapshot with its book, a starting position within [-50, 50],
    negative sell-side and positive buy-side volumes, the position stays
    within [-50, 50] after every prefix of the returned orders, the two
    quotes of phase 2 included. *)
Theorem resin_position_bound (w : World) (od : OrderDepth) :
  Dict.get (order_depths (w_state w)) "RAINFOREST_RESIN" = Some od ->
  -50 <= starting_position Rainforest_Resin_Strategy (w_state w) <= 50 ->
  Forall (fun pv => snd pv < 0) (sell_orders od) ->
  Forall (fun pv => 0 < snd pv) (buy_orders od) ->
  exists orders,
    fst (makeOrders Rainforest_Resin_Strategy w) = Return orders /\
    forall k : nat,
      -50 <= apply_orders
               (starting_position Rainforest_Resin_Strategy (w_state w))
               (firstn k orders) <= 50.
Proof.
  intros Hod Hpos Hs Hb.
  exists (engine Rainforest_Resin_Strategy (w_state w) od).
  split; [now apply (makeOrders_value Rainforest_Resin_Strategy)|].
  intros k. unfold engine.
  set (self := Rainforest_Resin_Strategy) in *.
  set (fair := fairValue self (w_state w)).
  set (pos0 := starting_position self (w_state w)) in *.
  destruct (phase1_within self fair pos0 od Hpos Hs Hb) as [W1 W2].
  destruct (phase1_spec self fair pos0 od)
    as (_ & _ & os1 & _ & os2 & p2 & _ & _ & _ & _ & _ & E & Ep).
  rewrite E in *. cbn [fst snd] in *.
  rewrite firstn_app, apply_orders_app.
  destruct (Nat.le_gt_cases k (List.length (os1 ++ os2))) as [Hle|Hgt].
  - replace (k - List.length (os1 ++ os2))%nat with 0%nat by lia.
    cbn [firstn]. cbn. now apply (stays_within_firstn (-50) 50).
  - rewrite firstn_all2 by lia. rewrite Ep.
    apply (phase2_prefix self fair p2); [assumption|].
    left. cbn. lia.
Qed.

Lemma resin_position_bound_witness :
  exists orders,
    fst (makeOrders Rainforest_Resin_Strategy
                    (fresh (snapshot scenario_book []))) = Return orders /\
    forall k : nat,
      -50 <= apply_orders
               (starting_position Rainforest_Resin_Strategy
                  (w_state (fresh (snapshot scenario_book []))))
               (firstn k orders) <= 50.
Proof.
  apply (resin_position_bound (fresh (snapshot scenario_book []))
                              scenario_book).
  - reflexivity.
  - cbn. lia.
  - repeat constructor.
  - repeat constructor.
Defined.

(* ================================================================== *)
(** ** More on the orchestrator *)

Lemma run_product_call_log (registry : Dict.t mm_Product_Strategy)
  (product : Symbol) (result : Dict.t (list Order)) (w : World)
  (strategy : mm_Product_Strategy) :
  Dict.get registry product = Some strategy ->
  run_product registry product result w
  = match Dict.get (order_depths (w_state w)) (productSymbol strategy) with
    | Some od =>
        (Return (Dict.set result product (engine strategy (w_state w) od)),
         logged w (logs (w_logger w)
                     +++ engine_log strategy (w_state w) od))
    | None => (Raise (KeyError (productSymbol strategy)), w)
    end.
Proof.
  intros H. unfold run_product, Dict.contains, getitem. rewrite H. cbn [negb].
  unfold bind at 1. unfold ret at 1. unfold bind.
  destruct (Dict.get (order_depths (w_state w)) (productSymbol strategy))
    as [od|] eqn:Hod.
  - rewrite (makeOrders_log strategy w od Hod). reflexivity.
  - rewrite (makeOrders_no_book strategy w Hod). reflexivity.
Qed.

(** What [makeOrders] appends to any logger is [logged_by]. *)
Lemma makeOrders_logged_by (strategy : mm_Product_Strategy) (w : World) :
  logs (w_logger (snd (makeOrders strategy w)))
  = logs (w_logger w) +++ logged_by strategy (w_state w).
Proof.
  unfold logged_by.
  destruct (Dict.get (order_depths (w_state w)) (productSymbol strategy))
    as [od|] eqn:Hod.
  - rewrite (makeOrders_log strategy w od Hod).
    rewrite (makeOrders_log strategy (mkWorld (w_state w) (mkLogger "" 0) [])
                            od Hod).
    reflexivity.
  - rewrite (makeOrders_no_book strategy w Hod).
    rewrite (makeOrders_no_book strategy
               (mkWorld (w_state w) (mkLogger "" 0) []) Hod).
    cbn. now rewrite append_nil_r.
Qed.

Lemma logged_by_engine (strategy : mm_Product_Strategy)
  (state : TradingState) (od : OrderDepth) :
  Dict.get (order_depths state) (productSymbol strategy) = Some od ->
  logged_by strategy state = engine_log strategy state od.
Proof.
  intros Hod. unfold logged_by.
  rewrite (makeOrders_log strategy (mkWorld state (mkLogger "" 0) []) od Hod).
  reflexivity.
Qed.

(** The loop of [run], when it completes, has appended [run_text] to the
    logger's text and changed nothing else of the world. *)
Lemma run_loop_text (registry : Dict.t mm_Product_Strategy) :
  forall products result w result' w',
    for_each products (run_product registry) result w = (Return result', w') ->
    w' = logged w (logs (w_logger w)
                     +++ run_text registry (w_state w) products).
Proof.
  induction products as [|q rest IH]; intros result w result' w' H.
  - cbn in H. inversion H; subst. cbn [run_text].
    now rewrite append_nil_r, logged_same.
  - cbn [for_each] in H. unfold bind in H. cbn [run_text].
    destruct (Dict.get registry q) as [sq|] eqn:Hq.
    + rewrite (run_product_call_log registry q result w sq Hq) in H.
      destruct (Dict.get (order_depths (w_state w)) (productSymbol sq))
        as [od|] eqn:Hod; [|discriminate].
      rewrite (IH _ _ _ _ H).
      rewrite (logged_by_engine sq (w_state w) od Hod).
      cbn [logged w_logger logs w_state w_stdout max_log_length].
      now rewrite append_assoc.
    + assert (Hc : Dict.contains registry q = false).
      { now apply contains_get_none. }
      rewrite (run_product_skip registry q result w Hc) in H.
      rewrite (IH _ _ _ _ H). reflexivity.
Qed.

(** X9.  When [run] returns it has printed exactly one line: the line
    [flush] builds from the snapshot, the result and the logger's text,
    which is the text logged before the step followed by what
    [makeOrders] logged for each registered key of [market_trades], in
    their order ([run_text]; what [makeOrders] appends to a logger is
    [logged_by]).  It leaves the logger's text empty and its budget, the
    snapshot and the lines printed before as they were. *)
Theorem run_prints_one_line (registry : Dict.t mm_Product_Strategy)
  (w w' : World) (result : Dict.t (list Order)) (conversions : Z)
  (trader_data : string) :
  run_with registry w = (Return (result, conversions, trader_data), w') ->
  w' = mkWorld (w_state w)
               (mkLogger "" (max_log_length (w_logger w)))
               (w_stdout w
                  ++ [flush_line
                        (mkLogger
                           (logs (w_logger w)
                              +++ run_text registry (w_state w)
                                    (Dict.keys (market_trades (w_state w))))
                           (max_log_length (w_logger w)))
                        (w_state w) result 0 ""]) /\
  (forall strategy w0,
     logs (w_logger (snd (makeOrders strategy w0)))
     = logs (w_logger w0) +++ logged_by strategy (w_state w0)).
Proof.
  unfold run_with, bind, get_state. intros H.
  split; [|exact makeOrders_logged_by].
  destruct (for_each (Dict.keys (market_trades (w_state w)))
                     (run_product registry) Dict.empty w)
    as [[r|e] w1] eqn:E; [|discriminate].
  apply run_loop_text in E. subst w1. cbn in H. inversion H; subst.
  reflexivity.
Qed.

(** Resin traded after [KELP], with a text already in the logger: the
    printed line is built from that text followed by the four lines
    [makeOrders] logs for the scenario book. *)
Lemma run_prints_one_line_witness :
  let w := mkWorld traded_state (mkLogger "earlier text" 3750) ["[]"] in
  let result :=
    [("RAINFOREST_RESIN",
      [mkOrder "RAINFOREST_RESIN" 9998 5;
       mkOrder "RAINFOREST_RESIN" 10002 (-4);
       mkOrder "RAINFOREST_RESIN" 9998 15;
       mkOrder "RAINFOREST_RESIN" 10002 (-15)])] in
  snd (run w)
  = mkWorld traded_state (mkLogger "" 3750)
            (["[]"]
               ++ [flush_line
                     (mkLogger
                        ("earlier text"
                           +++ (log_line [PStr "BUY"; PStr "5x"; PInt 9998]
                                  +++ log_line [PStr "SELL"; PStr "4x";
                                                PInt 10002]
                                  +++ log_line [PStr "BUY"; PStr "15x";
                                                PInt 9998]
                                  +++ log_line [PStr "SELL"; PStr "15x";
                                                PInt 10002]))
                        3750)
                     traded_state result 0 ""]).
Proof.
  intros w result.
  exact (proj1 (run_prints_one_line strategies w (snd (run w)) result 0 ""
                                    eq_refl)).
Defined.

Lemma run_loop_raises (registry : Dict.t mm_Product_Strategy) :
  forall products result w,
    (exists p s,
       In p products /\ Dict.get registry p = Some s /\
       Dict.get (order_depths (w_state w)) (productSymbol s) = None) ->
    exists k text,
      for_each products (run_product registry) result w
      = (Raise (KeyError k), logged w (logs (w_logger w) +++ text)) /\
      Dict.get (order_depths (w_state w)) k = None.
Proof.
  induction products as [|q rest IH]; intros result w (p & s & Hin & Hs & Hb).
  - contradiction.
  - cbn [for_each]. unfold bind.
    destruct (Dict.get registry q) as [sq|] eqn:Hq.
    + rewrite (run_product_call_log registry q result w sq Hq).
      destruct (Dict.get (order_depths (w_state w)) (productSymbol sq))
        as [od|] eqn:Hod.
      * destruct Hin as [->|Hin]; [congruence|].
        destruct (IH (Dict.set result q (engine sq (w_state w) od))
                     (logged w (logs (w_logger w)
                                  +++ engine_log sq (w_state w) od)))
          as (k & text & H & Hk).
        { exists p, s. auto. }
        rewrite H. exists k, (engine_log sq (w_state w) od +++ text).
        split; [|exact Hk].
        cbn [logged w_logger logs w_state w_stdout max_log_length].
        rewrite append_assoc. reflexivity.
      * exists (productSymbol sq), "".
        rewrite append_nil_r, logged_same. auto.
    + assert (Hc : Dict.contains registry q = false).
      { now apply contains_get_none. }
      rewrite (run_product_skip registry q result w Hc).
      destruct Hin as [->|Hin]; [congruence|].
      apply IH. exists p, s. auto.
Qed.

(** X10.  When a key of [market_trades] is registered and the snapshot
    has no order book for its strategy's instrument, [run] raises
    [KeyError] for an instrument without a book; the step prints no line
    and the text logged so far stays in the logger. *)
Theorem run_missing_book (registry : Dict.t mm_Product_Strategy) (w : World) :
  (exists p s,
     In p (Dict.keys (market_trades (w_state w))) /\
     Dict.get registry p = Some s /\
     Dict.get (order_depths (w_state w)) (productSymbol s) = None) ->
  exists k text,
    run_with registry w
    = (Raise (KeyError k), logged w (logs (w_logger w) +++ text)) /\
    Dict.get (order_depths (w_state w)) k = None.
Proof.
  intros H. unfold run_with, bind, get_state.
  destruct (run_loop_raises registry _ Dict.empty w H) as (k & text & E & Hk).
  rewrite E. exists k, text. auto.
Qed.

(** Resin traded while the snapshot has no order book at all. *)
Lemma run_missing_book_witness :
  exists k text,
    run_with strategies
             (fresh (mkTradingState "" 0 [] [] []
                                    [("RAINFOREST_RESIN", [])] []
                                    (mkObservation [] [])))
    = (Raise (KeyError k),
       logged (fresh (mkTradingState "" 0 [] [] []
                                     [("RAINFOREST_RESIN", [])] []
                                     (mkObservation [] [])))
              ("" +++ text)) /\
    Dict.get (@Dict.empty OrderDepth) k = None.
Proof.
  apply (run_missing_book
           strategies
           (fresh (mkTradingState "" 0 [] [] []
                                  [("RAINFOREST_RESIN", [])] []
                                  (mkObservation [] [])))).
  exists "RAINFOREST_RESIN", Rainforest_Resin_Strategy.
  split; [left; reflexivity|]. split; reflexivity.
Defined.

Lemma run_loop_entries (registry : Dict.t mm_Product_Strategy) :
  forall products result w result' w',
    for_each products (run_product registry) result w = (Return result', w') ->
    forall p,
      (In p products ->
       forall s, Dict.get registry p = Some s ->
       exists od,
         Dict.get (order_depths (w_state w)) (productSymbol s) = Some od /\
         Dict.get result' p = Some (engine s (w_state w) od)) /\
      (~ (In p products /\ Dict.contains registry p = true) ->
       Dict.get result' p = Dict.get result p).
Proof.
  induction products as [|q rest IH]; intros result w result' w' H p.
  - cbn in H. inversion H; subst. split; [contradiction | reflexivity].
  - cbn [for_each] in H. unfold bind in H.
    destruct (Dict.get registry q) as [sq|] eqn:Hq.
    + rewrite (run_product_call_log registry q result w sq Hq) in H.
      destruct (Dict.get (order_depths (w_state w)) (productSymbol sq))
        as [od|] eqn:Hod; [|discriminate].
      destruct (IH _ _ _ _ H p) as [IH1 IH2]. cbn [logged w_state] in IH1.
      assert (Hcq : Dict.contains registry q = true).
      { apply contains_get_some. eauto. }
      split.
      * intros Hin s Hs.
        destruct (in_dec string_dec p rest) as [Hr|Hr];
          [now apply IH1|].
        destruct Hin as [<-|Hin]; [|contradiction].
        rewrite Hq in Hs. inversion Hs; subst s.
        exists od. split; [assumption|].
        rewrite IH2 by tauto. rewrite get_set, String.eqb_refl. reflexivity.
      * intros Hn. rewrite IH2.
        -- rewrite get_set.
           destruct (String.eqb_spec p q) as [->|Hpq]; [|reflexivity].
           exfalso. apply Hn. split; [now left | assumption].
        -- intros [Hr Hc]. apply Hn. split; [now right | assumption].
    + assert (Hc : Dict.contains registry q = false).
      { now apply contains_get_none. }
      rewrite (run_product_skip registry q result w Hc) in H.
      destruct (IH _ _ _ _ H p) as [IH1 IH2].
      split.
      * intros [<-|Hin] s Hs; [congruence | now apply IH1].
      * intros Hn. apply IH2. intros [Hr Hc']. apply Hn.
        split; [now right | assumption].
Qed.

(** X11.  When [run] returns, the entry of its result for a registered
    key of [market_trades] is exactly the list [makeOrders] of that
    key's strategy returns on the same snapshot. *)
Theorem run_entries (registry : Dict.t mm_Product_Strategy) (w : World)
  (result : Dict.t (list Order)) (conversions : Z) (trader_data : string) :
  fst (run_with registry w) = Return (result, conversions, trader_data) ->
  forall p s,
    In p (Dict.keys (market_trades (w_state w))) ->
    Dict.get registry p = Some s ->
    exists orders,
      fst (makeOrders s w) = Return orders /\
      Dict.get result p = Some orders.
Proof.
  intros H p s Hin Hs.
  unfold run_with, bind, get_state in H.
  destruct (for_each (Dict.keys (market_trades (w_state w)))
                     (run_product registry) Dict.empty w)
    as [[r|e] w1] eqn:Hloop; [|discriminate].
  cbn in H. inversion H; subst. clear H.
  destruct (run_loop_entries registry _ _ _ _ _ Hloop p) as [H1 _].
  destruct (H1 Hin s Hs) as (od & Hod & Hr).
  exists (engine s (w_state w) od).
  split; [now apply makeOrders_value | assumption].
Qed.

Lemma run_entries_witness :
  exists orders,
    fst (makeOrders Rainforest_Resin_Strategy (fresh busy_state))
    = Return orders /\
    Dict.get
      [("RAINFOREST_RESIN",
        [mkOrder "RAINFOREST_RESIN" 9998 5;
         mkOrder "RAINFOREST_RESIN" 10002 (-4);
         mkOrder "RAINFOREST_RESIN" 9998 15;
         mkOrder "RAINFOREST_RESIN" 10002 (-15)])]
      "RAINFOREST_RESIN"
    = Some orders.
Proof.
  apply (run_entries
           strategies (fresh busy_state)
           [("RAINFOREST_RESIN",
             [mkOrder "RAINFOREST_RESIN" 9998 5;
              mkOrder "RAINFOREST_RESIN" 10002 (-4);
              mkOrder "RAINFOREST_RESIN" 9998 15;
              mkOrder "RAINFOREST_RESIN" 10002 (-15)])]
           0 "" eq_refl "RAINFOREST_RESIN" Rainforest_Resin_Strategy).
  - left. reflexivity.
  - reflexivity.
Defined.

Lemma keys_set_new {V : Type} (d : Dict.t V) (k : string) (v : V) :
  Dict.contains d k = false ->
  Dict.set d k v = d ++ [(k, v)].
Proof.
  unfold Dict.contains.
  induction d as [|[k0 v0] d IH]; cbn; intros H; [reflexivity|].
  destruct (String.eqb k k0); [discriminate|].
  rewrite IH by assumption. reflexivity.
Qed.

Lemma contains_app_new {V : Type} (d : Dict.t V) (k k' : string) (v : V) :
  Dict.contains (d ++ [(k, v)]) k' = true
  <-> Dict.contains d k' = true \/ k' = k.
Proof.
  unfold Dict.contains.
  induction d as [|[k0 v0] d IH]; cbn.
  - destruct (String.eqb_spec k' k); split; intros H; auto.
    destruct H; [discriminate | contradiction].
  - destruct (String.eqb k' k0); [tauto | exact IH].
Qed.

Lemma run_loop_key_order (registry : Dict.t mm_Product_Strategy) :
  forall products result w result' w',
    NoDup products ->
    (forall p, In p products -> Dict.contains result p = false) ->
    for_each products (run_product registry) result w = (Return result', w') ->
    Dict.keys result'
    = Dict.keys result ++ filter (Dict.contains registry) products.
Proof.
  induction products as [|q rest IH]; intros result w result' w' Hnd Hfresh H.
  - cbn in H. inversion H; subst. cbn. now rewrite app_nil_r.
  - cbn [for_each] in H. unfold bind in H.
    inversion Hnd as [|? ? Hq_rest Hnd_rest]; subst.
    destruct (Dict.get registry q) as [sq|] eqn:Hq.
    + rewrite (run_product_call_log registry q result w sq Hq) in H.
      destruct (Dict.get (order_depths (w_state w)) (productSymbol sq))
        as [od|]; [|discriminate].
      assert (Hcq : Dict.contains registry q = true).
      { apply contains_get_some. eauto. }
      rewrite keys_set_new in H by (apply Hfresh; now left).
      assert (Hfresh' : forall p, In p rest ->
                Dict.contains (result ++ [(q, engine sq (w_state w) od)]) p
                = false).
      { intros p Hp.
        destruct (Dict.contains (result ++ [(q, engine sq (w_state w) od)]) p)
          eqn:E; [|reflexivity].
        apply contains_app_new in E. destruct E as [E | ->].
        - rewrite Hfresh in E by (now right). discriminate.
        - contradiction. }
      rewrite (IH _ _ _ _ Hnd_rest Hfresh' H).
      cbn [filter]. rewrite Hcq. unfold Dict.keys.
      rewrite map_app, <- app_assoc. reflexivity.
    + assert (Hc : Dict.contains registry q = false).
      { now apply contains_get_none. }
      rewrite (run_product_skip registry q result w Hc) in H.
      cbn [filter]. rewrite Hc.
      apply (IH _ _ _ _ Hnd_rest) with (2 := H).
      intros p Hp. apply Hfresh. now right.
Qed.

(** X12.  The keys of a dictionary being distinct, the result of [run]
    lists the instruments in the order of [market_trades]: its keys are
    the keys of [market_trades] with the unregistered ones left out. *)
Theorem run_key_order (registry : Dict.t mm_Product_Strategy) (w : World)
  (result : Dict.t (list Order)) (conversions : Z) (trader_data : string) :
  NoDup (Dict.keys (market_trades (w_state w))) ->
  fst (run_with registry w) = Return (result, conversions, trader_data) ->
  Dict.keys result
  = filter (Dict.contains registry) (Dict.keys (market_trades (w_state w))).
Proof.
  intros Hnd H.
  unfold run_with, bind, get_state in H.
  destruct (for_each (Dict.keys (market_trades (w_state w)))
                     (run_product registry) Dict.empty w)
    as [[r|e] w1] eqn:Hloop; [|discriminate].
  cbn in H. inversion H; subst. clear H.
  assert (Hfresh : forall p,
             In p (Dict.keys (market_trades (w_state w))) ->
             Dict.contains (@Dict.empty (list Order)) p = false)
    by reflexivity.
  rewrite (run_loop_key_order registry _ _ _ _ _ Hnd Hfresh Hloop).
  reflexivity.
Qed.

(** A snapshot in which [KELP], resin and [SQUID_INK] traded, in this
    order. *)
Lemma run_key_order_witness :
  let st := mkTradingState "" 0 []
              [("RAINFOREST_RESIN", scenario_book)] []
              [("KELP", []); ("RAINFOREST_RESIN", []); ("SQUID_INK", [])]
              [] (mkObservation [] []) in
  Dict.keys
    [("RAINFOREST_RESIN",
      [mkOrder "RAINFOREST_RESIN" 9998 5;
       mkOrder "RAINFOREST_RESIN" 10002 (-4);
       mkOrder "RAINFOREST_RESIN" 9998 15;
       mkOrder "RAINFOREST_RESIN" 10002 (-15)])]
  = filter (Dict.contains strategies)
           (Dict.keys (market_trades (w_state (fresh st)))).
Proof.
  intros st.
  apply (run_key_order strategies (fresh st) _ 0 "").
  - repeat constructor; cbn; intuition discriminate.
  - reflexivity.
Defined.

(* ================================================================== *)
(** ** More on the serializer *)

Lemma prefix_substring_0 (n : nat) :
  forall s, prefix (substring 0 n s) s = true.
Proof.
  induction n as [|n IH]; intros [|c s]; cbn; try reflexivity.
  destruct (ascii_dec c c); [apply IH | congruence].
Qed.

(** X13.  For a maximal length of at least 3, [truncate] returns a text
    that fits as it is, and cuts a longer one to exactly the maximal
    length: the first [max_length - 3] characters followed by three
    dots. *)
Theorem truncate_cut (value : string) (max_length : Z) :
  3 <= max_length ->
  (len value <= max_length -> truncate value max_length = value) /\
  (max_length < len value ->
   exists head,
     truncate value max_length = head +++ "..." /\
     prefix head value = true /\
     len head = max_length - 3 /\
     len (truncate value max_length) = max_length).
Proof.
  intros H. unfold truncate. split; intros Hl.
  - destruct (Z.leb_spec (len value) max_length); [reflexivity | lia].
  - destruct (Z.leb_spec (len value) max_length); [lia|].
    unfold slice_to.
    destruct (Z.leb_spec 0 (max_length - 3)); [|lia].
    exists (substring 0 (Z.to_nat (max_length - 3)) value).
    split; [reflexivity|]. split; [apply prefix_substring_0|].
    unfold len in *. rewrite length_append, length_substring_0.
    cbn [String.length]. lia.
Qed.

Lemma truncate_cut_witness :
  (len "abcdefghij" <= 5 -> truncate "abcdefghij" 5 = "abcdefghij") /\
  (5 < len "abcdefghij" ->
   exists head,
     truncate "abcdefghij" 5 = head +++ "..." /\
     prefix head "abcdefghij" = true /\
     len head = 5 - 3 /\
     len (truncate "abcdefghij" 5) = 5).
Proof.
  apply (truncate_cut "abcdefghij" 5). lia.
Defined.

(** X14.  For a maximal length below 3, negative ones included,
    [truncate] returns for a text longer than the maximal length a text
    that is longer than the maximal length too: the text without its
    last [3 - max_length] characters, followed by three dots. *)
Theorem truncate_small_max (value : string) (max_length : Z) :
  max_length < 3 ->
  max_length < len value ->
  len (truncate value max_length)
  = Z.max 0 (len value - (3 - max_length)) + 3 /\
  max_length < len (truncate value max_length).
Proof.
  intros Hm Hl. unfold truncate.
  destruct (Z.leb_spec (len value) max_length); [lia|].
  unfold slice_to.
  destruct (Z.leb_spec 0 (max_length - 3)); [lia|].
  unfold len in *. rewrite length_append, length_substring_0.
  cbn [String.length]. lia.
Qed.

Lemma truncate_small_max_witness :
  len (truncate "ab" 1) = Z.max 0 (len "ab" - (3 - 1)) + 3 /\
  1 < len (truncate "ab" 1).
Proof.
  apply (truncate_small_max "ab" 1).
  - lia.
  - cbn. lia.
Defined.

Lemma escape_char_len (c : ascii) :
  (1 <= String.length (escape_char c))%nat.
Proof.
  unfold escape_char.
  repeat match goal with
         | |- context [if ?b then _ else _] => destruct b
         end; cbn; lia.
Qed.

(** Escaping never shortens a text. *)
Lemma escape_len (s : string) : len s <= len (escape s).
Proof.
  unfold len. induction s as [|c s IH]; cbn [escape String.length].
  - cbn. lia.
  - rewrite length_append. pose proof (escape_char_len c). lia.
Qed.

(** X15.  The length of the line [flush] prints is the length of the
    line with the three texts empty plus the lengths of the three cut
    texts as JSON escapes them; so the line is never shorter than the
    line with the texts empty plus the three cut texts as they are. *)
Theorem flush_line_length (self : Logger) (state : TradingState)
  (orders : Dict.t (list Order)) (conversions : Z) (trader_data : string) :
  let base :=
    len (to_json (JList [compress_state state ""; compress_orders orders;
                         JInt conversions; JStr ""; JStr ""])) in
  let m := (max_log_length self - base) / 3 in
  len (flush_line self state orders conversions trader_data)
  = base + len (escape (truncate (traderData state) m))
    + len (escape (truncate trader_data m))
    + len (escape (truncate (logs self) m)) /\
  base + len (truncate (traderData state) m) + len (truncate trader_data m)
  + len (truncate (logs self) m)
  <= len (flush_line self state orders conversions trader_data).
Proof.
  intros base m.
  assert (E : len (flush_line self state orders conversions trader_data)
              = base + len (escape (truncate (traderData state) m))
                + len (escape (truncate trader_data m))
                + len (escape (truncate (logs self) m))).
  { unfold flush_line. fold base. fold m. now rewrite dumps_line_len. }
  split; [exact E|].
  rewrite E.
  pose proof (escape_len (truncate (traderData state) m)).
  pose proof (escape_len (truncate trader_data m)).
  pose proof (escape_len (truncate (logs self) m)).
  lia.
Qed.

Lemma flush_line_within_budget_witness :
  len (flush_line (mkLogger "BUY 5x 9998" 3750)
                  (snapshot scenario_book []) Dict.empty 0 "")
  <= max_log_length (mkLogger "BUY 5x 9998" 3750).
Proof.
  apply (flush_line_within_budget (mkLogger "BUY 5x 9998" 3750)
                                  (snapshot scenario_book [])
                                  Dict.empty 0 "").
  - vm_compute. discriminate.
  - reflexivity.
  - reflexivity.
  - reflexivity.
Defined.

Lemma fold_set_fresh {A V : Type} (key : A -> string) (val : A -> V) :
  forall (l : list A) (acc : Dict.t V),
    NoDup (map key l) ->
    (forall x, In x l -> Dict.contains acc (key x) = false) ->
    fold_left (fun compressed x => Dict.set compressed (key x) (val x)) l acc
    = acc ++ map (fun x => (key x, val x)) l.
Proof.
  induction l as [|x l IH]; intros acc Hnd Hfresh; cbn [fold_left map].
  - now rewrite app_nil_r.
  - inversion Hnd as [|? ? Hx Hnd']; subst.
    rewrite keys_set_new by (apply Hfresh; now left).
    rewrite IH; [now rewrite <- app_assoc | assumption |].
    intros y Hy.
    destruct (Dict.contains (acc ++ [(key x, val x)]) (key y)) eqn:E;
      [|reflexivity].
    apply contains_app_new in E. destruct E as [E|E].
    + rewrite Hfresh in E by (now right). discriminate.
    + exfalso. apply Hx. rewrite <- E. now apply in_map.
Qed.

(** X16.  The keys of the order-depth table being distinct,
    [compress_order_depths] yields one member per instrument, in the
    order of the table: the instrument's symbol with its buy side and
    then its sell side, each a JSON object from the price (as a string)
    to the volume. *)
Theorem compress_order_depths_members (order_depths : Dict.t OrderDepth) :
  NoDup (Dict.keys order_depths) ->
  compress_order_depths order_depths
  = JDict (map (fun sd =>
                  (fst sd,
                   JList [json_of_levels (buy_orders (snd sd));
                          json_of_levels (sell_orders (snd sd))]))
               order_depths).
Proof.
  intros Hnd. unfold compress_order_depths, Dict.items.
  rewrite (fold_set_fresh fst
             (fun sd => JList [json_of_levels (buy_orders (snd sd));
                               json_of_levels (sell_orders (snd sd))])).
  - reflexivity.
  - exact Hnd.
  - reflexivity.
Qed.

Lemma compress_order_depths_members_witness :
  compress_order_depths [("KELP", empty_book);
                         ("RAINFOREST_RESIN", scenario_book)]
  = JDict [("KELP", JList [JDict []; JDict []]);
           ("RAINFOREST_RESIN",
            JList [JDict [("10002", JInt 4)]; JDict [("9998", JInt (-5))]])].
Proof.
  apply (compress_order_depths_members
           [("KELP", empty_book); ("RAINFOREST_RESIN", scenario_book)]).
  repeat constructor; cbn; intuition discriminate.
Defined.

Lemma json_induction (P : json -> Prop) :
  P JNull ->
  (forall n, P (JInt n)) ->
  (forall r, P (JFloat r)) ->
  (forall s, P (JStr s)) ->
  (forall l, Forall P l -> P (JList l)) ->
  (forall l, Forall (fun kv => P (snd kv)) l -> P (JDict l)) ->
  forall v, P v.
Proof.
  intros Hnull Hint Hfloat Hstr Hlist Hdict.
  fix IH 1. intros [| n | r | s | l | l].
  - exact Hnull.
  - apply Hint.
  - apply Hfloat.
  - apply Hstr.
  - apply Hlist. induction l as [|x l IHl]; constructor; [apply IH | exact IHl].
  - apply Hdict. induction l as [|[k x] l IHl]; constructor;
      [apply IH | exact IHl].
Qed.

Lemma escape_char_lines (c : ascii) : count_lines (escape_char c) = 0%nat.
Proof.
  destruct c as [[|] [|] [|] [|] [|] [|] [|] [|]]; reflexivity.
Qed.

Lemma escape_lines (s : string) : count_lines (escape s) = 0%nat.
Proof.
  induction s as [|c s IH]; cbn [escape]; [reflexivity|].
  now rewrite count_lines_append, escape_char_lines, IH.
Qed.

Lemma encode_basestring_lines (s : string) :
  count_lines (encode_basestring s) = 0%nat.
Proof.
  unfold encode_basestring. cbn [count_lines].
  rewrite count_lines_append, escape_lines. reflexivity.
Qed.

Lemma join_lines (sep : string) (parts : list string) :
  count_lines sep = 0%nat ->
  Forall (fun s => count_lines s = 0%nat) parts ->
  count_lines (join sep parts) = 0%nat.
Proof.
  intros Hsep. unfold join.
  induction 1 as [|x l Hx Hl IH]; cbn [String.concat]; [reflexivity|].
  destruct l as [|y l]; [assumption|].
  now rewrite !count_lines_append, Hx, Hsep, IH.
Qed.

(** JSON text has no raw newline when the float texts have none. *)
Lemma dumps_lines :
  forall v,
    Forall (fun r => count_lines r = 0%nat) (float_texts v) ->
    count_lines (dumps v) = 0%nat.
Proof.
  induction v as [| n | r | s | l IH | l IH] using json_induction;
    cbn [dumps float_texts]; intros H.
  - reflexivity.
  - apply count_lines_str_int.
  - now inversion H.
  - apply encode_basestring_lines.
  - rewrite !count_lines_append, join_lines; [reflexivity | reflexivity |].
    apply Forall_map.
    induction IH as [|x l Hx _ IHl]; constructor.
    + apply Hx. cbn [flat_map] in H. apply Forall_app in H. tauto.
    + apply IHl. cbn [flat_map] in H. apply Forall_app in H. tauto.
  - rewrite !count_lines_append, join_lines; [reflexivity | reflexivity |].
    apply Forall_map.
    induction IH as [|x l Hx _ IHl]; constructor.
    + rewrite !count_lines_append, encode_basestring_lines. cbn.
      apply Hx. cbn [flat_map] in H. apply Forall_app in H. tauto.
    + apply IHl. cbn [flat_map] in H. apply Forall_app in H. tauto.
Qed.

Lemma flat_map_nil {A B : Type} (f : A -> list B) (l : list A) :
  (forall x, f x = []) -> flat_map f l = [].
Proof.
  intros H. induction l as [|x l IH]; cbn; [reflexivity|].
  now rewrite H, IH.
Qed.

Lemma float_texts_rows {A : Type} (row : A -> json) (l : list A) :
  (forall x, float_texts (row x) = []) ->
  float_texts (JList (map row l)) = [].
Proof.
  intros H. cbn [float_texts]. rewrite flat_map_concat_map, map_map.
  rewrite <- flat_map_concat_map. now apply flat_map_nil.
Qed.

Lemma float_texts_levels (levels : list (Z * Z)) :
  float_texts (json_of_levels levels) = [].
Proof.
  unfold json_of_levels. cbn [float_texts].
  rewrite flat_map_concat_map, map_map, <- flat_map_concat_map.
  now apply flat_map_nil.
Qed.

Lemma float_texts_ints (d : Dict.t Z) :
  float_texts (JDict (map (fun kv => (fst kv, JInt (snd kv))) d)) = [].
Proof.
  cbn [float_texts].
  rewrite flat_map_concat_map, map_map, <- flat_map_concat_map.
  now apply flat_map_nil.
Qed.

Lemma float_texts_set (P : pyfloat -> Prop) (d : Dict.t json) (k : string)
  (v : json) :
  Forall P (float_texts (JDict d)) ->
  Forall P (float_texts v) ->
  Forall P (float_texts (JDict (Dict.set d k v))).
Proof.
  cbn [float_texts]. intros Hd Hv.
  induction d as [|[k0 v0] d IH]; cbn [Dict.set flat_map snd].
  - now rewrite app_nil_r.
  - cbn [flat_map snd] in Hd. apply Forall_app in Hd. destruct Hd as [H0 Hd].
    destruct (String.eqb k k0); cbn [flat_map snd]; apply Forall_app;
      split; auto.
Qed.

Lemma float_texts_fold {A : Type} (P : pyfloat -> Prop) (key : A -> string)
  (val : A -> json) :
  forall (l : list A) (acc : Dict.t json),
    Forall P (float_texts (JDict acc)) ->
    Forall (fun x => Forall P (float_texts (val x))) l ->
    Forall P (float_texts
                (JDict (fold_left
                          (fun compressed x =>
                             Dict.set compressed (key x) (val x))
                          l acc))).
Proof.
  induction l as [|x l IH]; intros acc Hacc Hl; cbn [fold_left];
    [assumption|].
  inversion Hl; subst. apply IH; [|assumption].
  now apply float_texts_set.
Qed.

Lemma float_texts_list (P : pyfloat -> Prop) (l : list json) :
  Forall (fun x => Forall P (float_texts x)) l ->
  Forall P (float_texts (JList l)).
Proof.
  cbn [float_texts]. intros H. now apply Forall_flat_map.
Qed.

Lemma float_texts_trades (P : pyfloat -> Prop) (trades : Dict.t (list Trade)) :
  Forall P (float_texts (compress_trades trades)).
Proof.
  unfold compress_trades. apply float_texts_list.
  apply Forall_flat_map. apply Forall_forall. intros arr _.
  apply Forall_map. apply Forall_forall. intros trade _.
  destruct (trade_buyer trade), (trade_seller trade); cbn; constructor.
Qed.

Lemma float_texts_state (state : TradingState) (trader_data : string) :
  floats_one_line state ->
  Forall (fun r => count_lines r = 0%nat)
         (float_texts (compress_state state trader_data)).
Proof.
  intros H. unfold compress_state. apply float_texts_list.
  repeat (apply Forall_cons); try apply Forall_nil.
  - unfold compress_listings.
    rewrite float_texts_rows by reflexivity. constructor.
  - unfold compress_order_depths. apply float_texts_fold; [constructor|].
    apply Forall_forall. intros sd _. cbn [float_texts flat_map].
    rewrite !float_texts_levels. constructor.
  - apply float_texts_trades.
  - apply float_texts_trades.
  - rewrite float_texts_ints. constructor.
  - unfold compress_observations. apply float_texts_list.
    repeat (apply Forall_cons); try apply Forall_nil.
    + rewrite float_texts_ints. constructor.
    + apply float_texts_fold; [constructor|].
      eapply Forall_impl; [|exact H]. intros po Hpo.
      cbn [float_texts flat_map]. rewrite app_nil_r. exact Hpo.
Qed.

Lemma float_texts_orders (P : pyfloat -> Prop) (orders : Dict.t (list Order)) :
  Forall P (float_texts (compress_orders orders)).
Proof.
  unfold compress_orders. apply float_texts_list.
  apply Forall_flat_map. apply Forall_forall. intros arr _.
  apply Forall_map. apply Forall_forall. intros order _. constructor.
Qed.

(** X18.  The texts of the snapshot's floats being free of newlines, the
    line [flush] prints holds no newline, whatever the trader data and
    the logged text hold: the newline [Logger.print] ends each logged
    line with reaches the output escaped. *)
Theorem flush_single_line (self : Logger) (state : TradingState)
  (orders : Dict.t (list Order)) (conversions : Z) (trader_data : string) :
  floats_one_line state ->
  count_lines (flush_line self state orders conversions trader_data) = 0%nat.
Proof.
  intros H. unfold flush_line, to_json. apply dumps_lines.
  apply float_texts_list.
  repeat (apply Forall_cons); try apply Forall_nil.
  - now apply float_texts_state.
  - apply float_texts_orders.
Qed.

Lemma flush_single_line_witness :
  count_lines
    (flush_line (mkLogger (log_line [PStr "BUY"; PStr "5x"; PInt 9998]) 3750)
                (mkTradingState "" 0 [] [] [] [] []
                   (mkObservation
                      []
                      [("MAGNIFICENT_MACARONS",
                        mkConversionObservation "1.5" "2.5" "0.1" "0.2"
                                                "0.3" "4.0" "5.0")]))
                Dict.empty 0 "") = 0%nat.
Proof.
  apply (flush_single_line
           (mkLogger (log_line [PStr "BUY"; PStr "5x"; PInt 9998]) 3750)
           (mkTradingState "" 0 [] [] [] [] []
              (mkObservation
                 []
                 [("MAGNIFICENT_MACARONS",
                   mkConversionObservation "1.5" "2.5" "0.1" "0.2"
                                           "0.3" "4.0" "5.0")]))
           Dict.empty 0 "").
  repeat constructor.
Defined.
